(** * HR Autopilot: a shallow embedding of the AI agents and workflows

    The TypeScript sources embedded here are
    - [apps/api/src/ai/gptService.ts]                     (module [GPTService])
    - [apps/api/src/ai/agents/baseAgent.ts]               (module [BaseAgent])
    - [apps/api/src/ai/workflows/leaveApproval.ts]        (module [LeaveApprovalWorkflow])
    - [apps/api/src/ai/workflows/complianceCheck.ts]      (module [ComplianceCheckWorkflow])
    - [apps/api/src/ai/agents/hackathon/fastApproval.ts]  (module [FastApprovalAgent])
    - [apps/api/src/ai/agents/hackathon/emergencyOverride.ts]
                                                          (module [EmergencyOverrideAgent])

    JavaScript values are an inductive type, thrown errors are an explicit
    result type, and everything the code does to its collaborators (the
    hosted model, the audit sinks, the cost tracker, the clock) is threaded
    through a [World] record by a small state-and-exception monad. *)

From Stdlib Require Import ZArith QArith Qround List String Ascii Bool Lia.
Import ListNotations.
Local Open Scope string_scope.
Local Open Scope Z_scope.
Set Warnings "-register-all".

(* ===================================================================== *)
(** * The JavaScript runtime this code relies on *)
(* ===================================================================== *)

Module JS.

(** A JavaScript value.  Numbers are kept as exact rationals: the code
    only copies them and compares small ones, so the rounding of IEEE
    doubles plays no part.  A [Date] object carries its time value in
    milliseconds since the epoch, [None] for an Invalid Date. *)
Inductive value : Type :=
| VUndef
| VNull
| VBool (b : bool)
| VNum (q : Q)
| VStr (s : string)
| VArr (items : list value)
| VObj (fields : list (string * value))
| VDate (t : option Z).

(** Plain objects: an association list with one entry per key. *)
Definition obj := list (string * value).

Fixpoint obj_get (o : obj) (k : string) : value :=
  match o with
  | [] => VUndef
  | (k', v) :: rest => if String.eqb k k' then v else obj_get rest k
  end.


(** [o[k] = v]: overwrite in place, or append a new property. *)
Fixpoint obj_set (o : obj) (k : string) (v : value) : obj :=
  match o with
  | [] => [(k, v)]
  | (k', v') :: rest =>
      if String.eqb k k' then (k', v) :: rest else (k', v') :: obj_set rest k v
  end.

(** What can be thrown.  [instanceof Error] holds of [ErrorObj] (which
    also stands for [TypeError] and [SyntaxError]) and of nothing else. *)
Inductive exn : Type :=
| ErrorObj (message : string)
| Thrown (v : value).

Inductive result (A : Type) : Type :=
| Ok (a : A)
| Throw (e : exn).
Arguments Ok {A} a.
Arguments Throw {A} e.

(** [v.k] for the property names this program reads ([decision],
    [status], [reason], [confidence], [issues], [plan], [type],
    [severity], [description]): a [TypeError] on [null] and [undefined],
    the field of an object, [undefined] on every other value. *)
Definition get (v : value) (k : string) : result value :=
  match v with
  | VUndef => Throw (ErrorObj ("Cannot read properties of undefined (reading '" ++ k ++ "')"))
  | VNull => Throw (ErrorObj ("Cannot read properties of null (reading '" ++ k ++ "')"))
  | VObj o => Ok (obj_get o k)
  | _ => Ok VUndef
  end.

(** [array.join(sep)] on strings. *)
Definition join (sep : string) (l : list string) : string := String.concat sep l.

(** [s.trim()], on the white space of a byte string. *)
Definition is_space (c : ascii) : bool :=
  let n := N_of_ascii c in (((9 <=? n) && (n <=? 13)) || (n =? 32))%N.

Fixpoint trim_start (l : list ascii) : list ascii :=
  match l with
  | c :: rest => if is_space c then trim_start rest else l
  | [] => []
  end.

Definition trim (s : string) : string :=
  string_of_list_ascii
    (rev (trim_start (rev (trim_start (list_ascii_of_string s))))).

(** Decimal digits of a natural number, at least [width] of them. *)
Fixpoint digits_aux (fuel : nat) (n : Z) (width : nat) (acc : string) : string :=
  match fuel with
  | O => acc
  | S k =>
      let acc' := String (ascii_of_N (Z.to_N (48 + n mod 10))) acc in
      if (n / 10 =? 0) && (Nat.leb width 1) then acc'
      else digits_aux k (n / 10) (Nat.pred width) acc'
  end.

Definition digits (width : nat) (n : Z) : string :=
  digits_aux (Z.to_nat (Z.log2 (Z.max n 1)) + width + 1) n width EmptyString.

(** The own enumerable properties an object spread [{...v}] copies. *)
Fixpoint indexed {A : Type} (f : A -> value) (i : Z) (l : list A) : obj :=
  match l with
  | [] => []
  | x :: rest => (digits 1 i, f x) :: indexed f (i + 1) rest
  end.

Definition spread (v : value) : obj :=
  match v with
  | VObj o => o
  | VArr items => indexed (fun x => x) 0 items
  | VStr s => indexed (fun c => VStr (String c EmptyString)) 0 (list_ascii_of_string s)
  | _ => []
  end.

End JS.
Export JS.

(* ===================================================================== *)
(** * [Date]: time values in milliseconds since the epoch, in UTC *)
(* ===================================================================== *)

Module Date.

(** A time value; [None] is [NaN], the value of an Invalid Date. *)
Definition time := option Z.

Definition msPerDay : Z := 86400000.

(** [Date.UTC(y, m, d)] for a civil date (proleptic Gregorian calendar,
    [m] from 1 to 12). *)
Definition days_from_civil (y m d : Z) : Z :=
  let y' := if m <=? 2 then y - 1 else y in
  let era := y' / 400 in
  let yoe := y' - era * 400 in
  let mp := if m <=? 2 then m + 9 else m - 3 in
  let doy := (153 * mp + 2) / 5 + d - 1 in
  let doe := yoe * 365 + yoe / 4 - yoe / 100 + doy in
  era * 146097 + doe - 719468.

Definition UTC (y m d : Z) : Z := days_from_civil y m d * msPerDay.

Definition civil_from_days (z : Z) : Z * Z * Z :=
  let z := z + 719468 in
  let era := z / 146097 in
  let doe := z - era * 146097 in
  let yoe := (doe - doe / 1460 + doe / 36524 - doe / 146096) / 365 in
  let doy := doe - (365 * yoe + yoe / 4 - yoe / 100) in
  let mp := (5 * doy + 2) / 153 in
  let d := doy - (153 * mp + 2) / 5 + 1 in
  let m := if mp <? 10 then mp + 3 else mp - 9 in
  let y := yoe + era * 400 in
  (if m <=? 2 then y + 1 else y, m, d).

(** [date.getDay()]: 0 is Sunday, 6 is Saturday (1970-01-01 was a
    Thursday). *)
Definition getDay (t : Z) : Z := (t / msPerDay + 4) mod 7.

(** [date.toISOString()] of a valid date. *)
Definition toISOString (t : Z) : string :=
  let '(y, m, d) := civil_from_days (t / msPerDay) in
  let r := t mod msPerDay in
  let year :=
    if (0 <=? y) && (y <=? 9999) then digits 4 y
    else (if y <? 0 then "-" else "+") ++ digits 6 (Z.abs y) in
  year ++ "-" ++ digits 2 m ++ "-" ++ digits 2 d ++ "T"
    ++ digits 2 (r / 3600000) ++ ":" ++ digits 2 (r / 60000 mod 60) ++ ":"
    ++ digits 2 (r / 1000 mod 60) ++ "." ++ digits 3 (r mod 1000) ++ "Z".

(** [a > b] on dates compares time values; every comparison with [NaN] is
    false. *)
Definition gt (a b : time) : bool :=
  match a, b with
  | Some x, Some y => y <? x
  | _, _ => false
  end.

End Date.

(** [Math.round]: to the nearest integer, ties towards plus infinity. *)
Definition Math_round (q : Q) : Z := Qfloor (q + (1 # 2)).

(** [Math.ceil(n / 4)] for a length [n]. *)
Definition Math_ceil_div4 (n : Z) : Z := (n + 3) / 4.

(* ===================================================================== *)
(** * [JSON.parse] *)
(* ===================================================================== *)

Module JSON.

(** The text is read as a list of character codes.  Strings are byte
    strings here: a [\uXXXX] escape is stored in UTF-8, and a number
    keeps its exact decimal value. *)
Definition codes (s : string) : list N := map N_of_ascii (list_ascii_of_string s).
Definition text (l : list N) : string := string_of_list_ascii (map ascii_of_N l).

Definition is_ws (c : N) : bool :=
  ((c =? 32) || (c =? 9) || (c =? 10) || (c =? 13))%N.

Definition is_digit (c : N) : bool := ((48 <=? c) && (c <=? 57))%N.

Fixpoint skip_ws (s : list N) : list N :=
  match s with
  | c :: rest => if is_ws c then skip_ws rest else s
  | [] => []
  end.

Fixpoint strip_prefix (p s : list N) : option (list N) :=
  match p, s with
  | [], _ => Some s
  | a :: p', b :: s' => if (a =? b)%N then strip_prefix p' s' else None
  | _ :: _, [] => None
  end.

Definition hex (c : N) : option N :=
  (if is_digit c then Some (c - 48)
   else if (97 <=? c) && (c <=? 102) then Some (c - 87)
   else if (65 <=? c) && (c <=? 70) then Some (c - 55)
   else None)%N.

Definition utf8 (cp : N) : list N :=
  (if cp <? 128 then [cp]
   else if cp <? 2048 then [192 + cp / 64; 128 + cp mod 64]
   else [224 + cp / 4096; 128 + (cp / 64) mod 64; 128 + cp mod 64])%N.

Definition escape (c : N) : option N :=
  (if (c =? 34) || (c =? 92) || (c =? 47) then Some c
   else if c =? 98 then Some 8
   else if c =? 102 then Some 12
   else if c =? 110 then Some 10
   else if c =? 114 then Some 13
   else if c =? 116 then Some 9
   else None)%N.

(** The characters of a string literal after its opening quote; [acc]
    holds what was read, last character first. *)
Fixpoint parse_chars (s : list N) (acc : list N) : option (string * list N) :=
  match s with
  | [] => None
  | c :: rest =>
      if (c =? 34)%N then Some (text (rev acc), rest)
      else if (c =? 92)%N then
        match rest with
        | [] => None
        | e :: rest' =>
            if (e =? 117)%N then
              match rest' with
              | a :: b :: c' :: d :: rest'' =>
                  match hex a, hex b, hex c', hex d with
                  | Some a, Some b, Some c', Some d =>
                      parse_chars rest''
                        (rev (utf8 (a * 4096 + b * 256 + c' * 16 + d)%N) ++ acc)
                  | _, _, _, _ => None
                  end
              | _ => None
              end
            else
              match escape e with
              | Some x => parse_chars rest' (x :: acc)
              | None => None
              end
        end
      else if (c <? 32)%N then None
      else parse_chars rest (c :: acc)
  end.

(** A run of digits: its value after [acc], how many there were, the rest. *)
Fixpoint take_digits (s : list N) (acc : Z) (n : nat) : Z * nat * list N :=
  match s with
  | c :: rest =>
      if is_digit c then take_digits rest (acc * 10 + Z.of_N (c - 48)) (S n)
      else (acc, n, s)
  | [] => (acc, n, [])
  end.

Definition parse_int (s : list N) : option (Z * list N) :=
  match s with
  | c :: rest =>
      if (c =? 48)%N then Some (0, rest)
      else if is_digit c then
        let '(v, _, rest') := take_digits s 0 O in Some (v, rest')
      else None
  | [] => None
  end.

Definition parse_frac (s : list N) : option (Z * nat * list N) :=
  match s with
  | c :: rest =>
      if (c =? 46)%N then
        match take_digits rest 0 O with
        | (_, O, _) => None
        | r => Some r
        end
      else Some (0, O, s)
  | [] => Some (0, O, [])
  end.

Definition parse_exp (s : list N) : option (Z * list N) :=
  match s with
  | c :: rest =>
      if (c =? 101)%N || (c =? 69)%N then
        let '(sign, rest1) :=
          match rest with
          | d :: rest' =>
              if (d =? 45)%N then (-1, rest')
              else if (d =? 43)%N then (1, rest') else (1, rest)
          | [] => (1, rest)
          end in
        match take_digits rest1 0 O with
        | (_, O, _) => None
        | (v, _, rest2) => Some (sign * v, rest2)
        end
      else Some (0, s)
  | [] => Some (0, [])
  end.

(** [m * 10 ^ e] as a rational. *)
Definition scale (m e : Z) : Q :=
  if 0 <=? e then inject_Z (m * 10 ^ e) else Qred (m # Z.to_pos (10 ^ (- e))).

Definition parse_number (s : list N) : option (Q * list N) :=
  let '(sign, s1) :=
    match s with
    | c :: rest => if (c =? 45)%N then (-1, rest) else (1, s)
    | [] => (1, s)
    end in
  match parse_int s1 with
  | None => None
  | Some (i, s2) =>
      match parse_frac s2 with
      | None => None
      | Some (f, n, s3) =>
          match parse_exp s3 with
          | None => None
          | Some (e, s4) =>
              Some (scale (sign * (i * 10 ^ Z.of_nat n + f)) (e - Z.of_nat n), s4)
          end
      end
  end.

(** Recursive descent; every call spends one unit of [fuel]. *)
Fixpoint parse_value (fuel : nat) (s : list N) : option (value * list N) :=
  match fuel with
  | O => None
  | S k =>
      match skip_ws s with
      | [] => None
      | c :: rest =>
          if (c =? 34)%N then
            match parse_chars rest [] with
            | Some (str, r) => Some (VStr str, r)
            | None => None
            end
          else if (c =? 91)%N then
            match skip_ws rest with
            | d :: r => if (d =? 93)%N then Some (VArr [], r) else parse_elements k rest []
            | [] => None
            end
          else if (c =? 123)%N then
            match skip_ws rest with
            | d :: r => if (d =? 125)%N then Some (VObj [], r) else parse_members k rest []
            | [] => None
            end
          else if (c =? 45)%N || is_digit c then
            match parse_number (c :: rest) with
            | Some (q, r) => Some (VNum q, r)
            | None => None
            end
          else
            match strip_prefix (codes "null") (c :: rest) with
            | Some r => Some (VNull, r)
            | None =>
                match strip_prefix (codes "true") (c :: rest) with
                | Some r => Some (VBool true, r)
                | None =>
                    match strip_prefix (codes "false") (c :: rest) with
                    | Some r => Some (VBool false, r)
                    | None => None
                    end
                end
            end
      end
  end

with parse_elements (fuel : nat) (s : list N) (acc : list value)
  : option (value * list N) :=
  match fuel with
  | O => None
  | S k =>
      match parse_value k s with
      | None => None
      | Some (v, r) =>
          match skip_ws r with
          | d :: r' =>
              if (d =? 44)%N then parse_elements k r' (v :: acc)
              else if (d =? 93)%N then Some (VArr (rev (v :: acc)), r')
              else None
          | [] => None
          end
      end
  end

with parse_members (fuel : nat) (s : list N) (acc : obj)
  : option (value * list N) :=
  match fuel with
  | O => None
  | S k =>
      match skip_ws s with
      | q :: s1 =>
          if (q =? 34)%N then
            match parse_chars s1 [] with
            | None => None
            | Some (key, s2) =>
                match skip_ws s2 with
                | c :: s3 =>
                    if (c =? 58)%N then
                      match parse_value k s3 with
                      | None => None
                      | Some (v, r) =>
                          match skip_ws r with
                          | d :: r' =>
                              if (d =? 44)%N then parse_members k r' (obj_set acc key v)
                              else if (d =? 125)%N then Some (VObj (obj_set acc key v), r')
                              else None
                          | [] => None
                          end
                      end
                    else None
                | [] => None
                end
            end
          else None
      | [] => None
      end
  end.

(** [JSON.parse(text)]: [None] stands for the [SyntaxError] it throws. *)
Definition parse (raw : string) : option value :=
  let s := codes raw in
  match parse_value (2 * List.length s + 2) s with
  | Some (v, r) => match skip_ws r with [] => Some v | _ => None end
  | None => None
  end.

(** A run of the descent on [s] that ended in [res] keeps its result under
    more fuel: it read at least one character, and two units of fuel per
    character read are enough. *)
Definition keeps (A : Type) (run : nat -> option (A * list N)) (s : list N)
           (res : A * list N) : Prop :=
  (List.length (snd res) < List.length s)%nat
  /\ forall k, (2 * (List.length s - List.length (snd res)) <= k)%nat -> run k = Some res.

(** Sample reply texts are written with apostrophes in place of the double
    quotes; [dq] puts the double quotes back. *)
Definition dq (s : string) : string :=
  text (map (fun c => if (c =? 39)%N then 34%N else c) (codes s)).

End JSON.

(** [JSON.parse] inside a [try]: the [SyntaxError] it throws. *)
Definition JSON_parse (raw : string) : result value :=
  match JSON.parse raw with
  | Some v => Ok v
  | None => Throw (ErrorObj "Unexpected token in JSON")
  end.

(* ===================================================================== *)
(** * The collaborators, and the monad that threads them *)
(* ===================================================================== *)

(** A chat message.  The fixed wording of a prompt is named, not
    reproduced; [args] are the values interpolated into it, in order. *)
Inductive Message : Type :=
| SystemMessage (template : string) (args : list value)
| HumanMessage (template : string) (args : list value).

(** One request to the hosted model: the [ChatOpenAI] configuration and
    the messages. *)
Record Call : Type := mkCall {
  modelName : string;
  temperature : Q;
  maxTokens : option Z;
  messages : list Message
}.

(** [response.content]: a string, or LangChain's array of content parts. *)
Inductive Content : Type :=
| Text (s : string)
| Parts (parts : list obj).

(** What [model.invoke] resolves to. *)
Record AIMessage : Type := mkAIMessage { content : Content }.

Inductive Outcome : Type :=
| Reply (c : Content)
| Failure (e : exn).

Record World : Type := mkWorld {
  now : Z;                           (* the clock, [Date.now()] *)
  llm : Call -> Outcome;             (* the hosted model *)
  elapsed : Call -> Z;               (* how long a call takes *)
  modelCalls : list Call;            (* every [invoke] so far *)
  auditLog : list obj;               (* [AuditLogger.log] *)
  overrideLog : list obj;            (* [AuditService.logOverride] *)
  costLog : list obj;                (* [CostTracker.trackUsage] *)
  demoLog : list string;             (* [logDemoEvent] *)
  env : string -> option string;     (* [process.env] *)
  demoMode : bool                    (* the demo-mode feature flag of the deployment *)
}.

Definition M (A : Type) : Type := World -> result A * World.

Definition ret {A} (a : A) : M A := fun w => (Ok a, w).
Definition throw {A} (e : exn) : M A := fun w => (Throw e, w).
Definition bind {A B} (c : M A) (k : A -> M B) : M B :=
  fun w => match c w with
           | (Ok a, w') => k a w'
           | (Throw e, w') => (Throw e, w')
           end.
Definition try_catch {A} (c : M A) (handler : exn -> M A) : M A :=
  fun w => match c w with
           | (Ok a, w') => (Ok a, w')
           | (Throw e, w') => handler e w'
           end.
Definition lift {A} (r : result A) : M A := fun w => (r, w).

Declare Scope js_scope.
Delimit Scope js_scope with js.
Notation "x <- c ;; k" := (bind c (fun x => k))
  (at level 61, c at next level, right associativity) : js_scope.
Notation "c ;;; k" := (bind c (fun _ => k))
  (at level 61, right associativity) : js_scope.
Local Open Scope js_scope.

(** The same sequencing for code that touches no collaborator. *)
Definition bindR {A B} (r : result A) (k : A -> result B) : result B :=
  match r with
  | Ok a => k a
  | Throw e => Throw e
  end.
Notation "x <-- r ;; k" := (bindR r (fun x => k))
  (at level 61, r at next level, right associativity) : js_scope.

Definition clock : M Z := fun w => (Ok (now w), w).

(** [new Date().toISOString()] *)
Definition timestamp : M string := fun w => (Ok (Date.toISOString (now w)), w).

Definition getenv (name : string) : M (option string) := fun w => (Ok (env w name), w).

Definition set_model (w : World) (t : Z) (calls : list Call) : World :=
  mkWorld t (llm w) (elapsed w) calls (auditLog w) (overrideLog w)
          (costLog w) (demoLog w) (env w) (demoMode w).

Definition set_auditLog (w : World) (l : list obj) : World :=
  mkWorld (now w) (llm w) (elapsed w) (modelCalls w) l (overrideLog w)
          (costLog w) (demoLog w) (env w) (demoMode w).

Definition set_overrideLog (w : World) (l : list obj) : World :=
  mkWorld (now w) (llm w) (elapsed w) (modelCalls w) (auditLog w) l
          (costLog w) (demoLog w) (env w) (demoMode w).

Definition set_costLog (w : World) (l : list obj) : World :=
  mkWorld (now w) (llm w) (elapsed w) (modelCalls w) (auditLog w) (overrideLog w)
          l (demoLog w) (env w) (demoMode w).

Definition set_demoLog (w : World) (l : list string) : World :=
  mkWorld (now w) (llm w) (elapsed w) (modelCalls w) (auditLog w) (overrideLog w)
          (costLog w) l (env w) (demoMode w).

Definition set_demoMode (w : World) (b : bool) : World :=
  mkWorld (now w) (llm w) (elapsed w) (modelCalls w) (auditLog w) (overrideLog w)
          (costLog w) (demoLog w) (env w) b.

(** [await model.invoke(messages)]: the call is recorded, time passes, and
    the provider answers or fails. *)
Definition invoke (c : Call) : M AIMessage :=
  fun w =>
    let w' := set_model w (now w + elapsed w c) (modelCalls w ++ [c]) in
    match llm w c with
    | Reply r => (Ok (mkAIMessage r), w')
    | Failure e => (Throw e, w')
    end.

Definition auditLogger_log (event : obj) : M unit :=
  fun w => (Ok tt, set_auditLog w (auditLog w ++ [event])).

Definition auditService_logOverride (entry : obj) : M unit :=
  fun w => (Ok tt, set_overrideLog w (overrideLog w ++ [entry])).

Definition costTracker_trackUsage (usage : obj) : M unit :=
  fun w => (Ok tt, set_costLog w (costLog w ++ [usage])).

Definition logDemoEvent (line : string) : M unit :=
  fun w => (Ok tt, set_demoLog w (demoLog w ++ [line])).

(** [`${content}`] and [content.toString()]: a string is itself, an array
    of objects prints each part as [[object Object]]. *)
Definition Content_toString (c : Content) : string :=
  match c with
  | Text s => s
  | Parts parts => join "," (map (fun _ => "[object Object]") parts)
  end.

(** [new C(...)] for a class named [C]: where the module binds no such
    name, evaluating it throws a [ReferenceError], [C is not defined]. *)
Definition construct {A : Type} (bound : bool) (className : string) (object : A)
  : result A :=
  if bound then Ok object else Throw (ErrorObj (className ++ " is not defined")).

(** [error instanceof Error ? error.message : fallback] *)
Definition message_or (e : exn) (fallback : string) : string :=
  match e with
  | ErrorObj m => m
  | Thrown _ => fallback
  end.

(** [array.map(f)] where the receiver came out of a property read: only an
    array has a [map] to call. *)
Fixpoint mapM {A B} (f : A -> M B) (l : list A) : M (list B) :=
  match l with
  | [] => ret []
  | x :: rest => y <- f x ;; ys <- mapM f rest ;; ret (y :: ys)
  end.

Definition array_map {B} (receiver : value) (f : value -> M B) : M (list B) :=
  match receiver with
  | VArr items => mapM f items
  | VUndef => throw (ErrorObj "Cannot read properties of undefined (reading 'map')")
  | VNull => throw (ErrorObj "Cannot read properties of null (reading 'map')")
  | _ => throw (ErrorObj "map is not a function")
  end.

(* ===================================================================== *)
(** * The records of [db/types] and [models/employees] *)
(* ===================================================================== *)

(** A date field of a request: absent ([undefined] or the empty string), or
    a date string or [Date] given with the time value [new Date(field)]
    reads from it. *)
Inductive DateField : Type :=
| NoDate
| DateOf (t : Date.time).

(** [new Date(field)] *)
Definition new_Date (f : DateField) : Date.time :=
  match f with
  | NoDate => None
  | DateOf t => t
  end.

(** [!field] *)
Definition absent (f : DateField) : bool :=
  match f with
  | NoDate => true
  | DateOf _ => false
  end.

Definition DateField_value (f : DateField) : value :=
  match f with
  | NoDate => VUndef
  | DateOf t => VDate t
  end.

Record LeaveRequest : Type := mkLeaveRequest {
  id : string;
  employeeId : string;
  startDate : DateField;
  endDate : DateField;
  reason : option string
}.

Record Employee : Type := mkEmployee {
  employee_id : string;
  name : string;
  position : string;
  department : string;
  leaveBalance : Q;
  experienceLevel : option string
}.

Record HRManager : Type := mkHRManager {
  manager_id : string;
  manager_name : string;
  clearanceLevel : Q
}.

(** An [HRDecision] as it exists at run time: [status] and [reason] hold
    whatever was stored in them. *)
Record HRDecision : Type := mkHRDecision {
  status : value;
  decision_reason : value;
  metadata : option obj
}.

Inductive Status : Type := APPROVED | DENIED | FLAGGED | PENDING | ERROR.

Definition Status_name (s : Status) : string :=
  match s with
  | APPROVED => "APPROVED"
  | DENIED => "DENIED"
  | FLAGGED => "FLAGGED"
  | PENDING => "PENDING"
  | ERROR => "ERROR"
  end.

(** [x === s] for an environment variable [x], which may be unset. *)
Definition strictly_equals (x : option string) (s : string) : bool :=
  match x with
  | Some v => String.eqb v s
  | None => false
  end.

(** [s || fallback] on an optional string. *)
Definition or_default (s : option string) (fallback : string) : string :=
  match s with
  | Some x => if String.eqb x EmptyString then fallback else x
  | None => fallback
  end.

(** [list.length > 0 ? list.join(', ') : 'None'] *)
Definition join_or_None (l : list string) : string :=
  match l with
  | [] => "None"
  | _ => join ", " l
  end.

(* ===================================================================== *)
(** * [agents/baseAgent.ts] *)
(* ===================================================================== *)

Module BaseAgent.

(** Common validation for all leave requests. *)
Definition validateRequest (request : LeaveRequest) : M unit :=
  if absent (startDate request) || absent (endDate request) then
    throw (ErrorObj "Missing required dates in leave request")
  else if Date.gt (new_Date (startDate request)) (new_Date (endDate request)) then
    throw (ErrorObj "Start date cannot be after end date")
  else ret tt.

(** Standardized approval logging. *)
Definition logDecision (decision : HRDecision) (requestId agentType : string) : M unit :=
  ts <- timestamp ;;
  auditLogger_log
    [("event", VStr "LEAVE_DECISION");
     ("entityId", VStr requestId);
     ("metadata", VObj [("agent", VStr agentType);
                        ("status", status decision);
                        ("reason", decision_reason decision);
                        ("timestamp", VStr ts)])].

(** The [while (current <= end)] loop, one day per round, for a process
    whose time zone is UTC: there [getDay] is the day of the week in UTC
    and [setDate(getDate() + 1)] moves the date 24 hours on.  In a zone
    whose clock changes a step can be 23 or 25 hours, which this loop does
    not follow. *)
Fixpoint businessDaysLoop (rounds : nat) (current end_ count : Z) : Z :=
  match rounds with
  | O => count
  | S k =>
      if current <=? end_ then
        let day := Date.getDay current in
        let count' := if negb (day =? 0) && negb (day =? 6) then count + 1 else count in
        businessDaysLoop k (current + Date.msPerDay) end_ count'
      else count
  end.

(** Business days between two dates, weekends excluded.  The loop body
    runs once per day from [start] to [end], which bounds its rounds. *)
Definition calculateBusinessDays (start end_ : Date.time) : Z :=
  match start, end_ with
  | Some s, Some e =>
      businessDaysLoop (Z.to_nat ((e - s) / Date.msPerDay + 1)) s e 0
  | _, _ => 0
  end.

(** Standard error handler for all agents. *)
Definition handleError (error : exn) (context : string) : M HRDecision :=
  let errorMessage := message_or error "Unknown error occurred" in
  ts <- timestamp ;;
  auditLogger_log
    [("event", VStr "AGENT_ERROR");
     ("entityId", VStr context);
     ("metadata", VObj [("error", VStr errorMessage); ("timestamp", VStr ts)])] ;;;
  ret {| status := VStr "ERROR";
         decision_reason := VStr ("Failed to process request: " ++ errorMessage);
         metadata := None |}.

End BaseAgent.

(* ===================================================================== *)
(** * [agents/hackathon/fastApproval.ts] *)
(* ===================================================================== *)

Module FastApprovalAgent.

Definition FAST_APPROVAL_THRESHOLD_DAYS : Z := 3.

(** The helper at the end of the file:
    [Math.round((end.getTime() - start.getTime()) / millisecondsPerDay)];
    [None] is the [NaN] an Invalid Date leads to. *)
Definition calculateBusinessDays (start end_ : Date.time) : option Z :=
  match start, end_ with
  | Some s, Some e => Some (Math_round ((e - s) # 86400000))
  | _, _ => None
  end.

(** Checks if leave duration is within the fast-track threshold; a
    comparison with [NaN] is false. *)
Definition checkLeaveDuration (request : LeaveRequest) : bool :=
  match calculateBusinessDays (new_Date (startDate request))
                              (new_Date (endDate request)) with
  | Some daysRequested => daysRequested <=? FAST_APPROVAL_THRESHOLD_DAYS
  | None => false
  end.

(** Verifies no calendar conflicts exist (simplified for demo). *)
Definition checkCalendarConflicts (request : LeaveRequest) : bool := true.

Definition evaluate (request : LeaveRequest) : M HRDecision :=
  let isShortLeave := checkLeaveDuration request in
  let hasNoConflicts := checkCalendarConflicts request in
  if isShortLeave && hasNoConflicts then
    logDemoEvent ("Fast-track approved leave for " ++ employeeId request) ;;;
    ts <- timestamp ;;
    ret {| status := VStr "APPROVED";
           decision_reason := VStr "Qualifies for demo fast-track approval";
           metadata := Some [("fastTracked", VBool true); ("checkedAt", VStr ts)] |}
  else
    ret {| status := VStr "PENDING";
           decision_reason := VStr "Does not meet fast-track criteria";
           metadata := None |}.

End FastApprovalAgent.

(* ===================================================================== *)
(** * [agents/hackathon/emergencyOverride.ts] *)
(* ===================================================================== *)

Module EmergencyOverrideAgent.

(** Validates the manager's override authorization level: level 3 and
    above can override. *)
Definition isAuthorizedForOverride (manager : HRManager) : bool :=
  Qle_bool 3 (clearanceLevel manager).

(** The entry handed to [auditService.logOverride]. *)
Definition overrideEntry (request : LeaveRequest) (manager : HRManager)
           (justification : string) (t : Z) : obj :=
  [("requestId", VStr (id request));
   ("managerId", VStr (manager_id manager));
   ("justification", VStr justification);
   ("timestamp", VDate (Some t))].

Definition forceApprove (request : LeaveRequest) (manager : HRManager)
           (justification : string) : M HRDecision :=
  if negb (isAuthorizedForOverride manager) then
    throw (ErrorObj "Manager not authorized for emergency overrides")
  else
    t <- clock ;;
    auditService_logOverride (overrideEntry request manager justification t) ;;;
    ret {| status := VStr "APPROVED";
           decision_reason := VStr ("Emergency override: " ++ justification);
           metadata := Some [("overriddenBy", VStr (manager_name manager));
                             ("normalPolicy", VStr "Bypassed for demo purposes")] |}.

End EmergencyOverrideAgent.

(* ===================================================================== *)
(** * [workflows/baseWorkflow.ts] *)
(* ===================================================================== *)

Module BaseWorkflow.

(** Modelled from the spec: [BaseWorkflow.validateInputs], whose file is
    not among the sources.  The spec asks for validation errors on
    malformed request dates and missing required fields, raised before
    any external call, and for the invariant start date <= end date; the
    wording of the messages is that of [BaseAgent.validateRequest]. *)
Definition validateInputs (request : LeaveRequest) (employee : Employee) : M unit :=
  if absent (startDate request) || absent (endDate request) then
    throw (ErrorObj "Missing required dates in leave request")
  else if Date.gt (new_Date (startDate request)) (new_Date (endDate request)) then
    throw (ErrorObj "Start date cannot be after end date")
  else ret tt.

(** Modelled from the spec: [BaseWorkflow.handleError], whose file is not
    among the sources.  The spec has the leave-decision workflow convert a
    caught failure into a terminal ERROR status record; the reason is
    worded as [BaseAgent.handleError] words it. *)
Definition handleError (error : exn) : M HRDecision :=
  let errorMessage := message_or error "Unknown error occurred" in
  ret {| status := VStr "ERROR";
         decision_reason := VStr ("Failed to process request: " ++ errorMessage);
         metadata := None |}.

End BaseWorkflow.

(* ===================================================================== *)
(** * [workflows/leaveApproval.ts] *)
(* ===================================================================== *)

Module LeaveApprovalWorkflow.

Record Context : Type := mkContext {
  teamCoverage : Q;
  criticalProjects : list string
}.

(** [this.model] *)
Definition model (messages : list Message) : Call :=
  mkCall "gpt-3.5-turbo" (2 # 10) (Some 500) messages.

(** [JSON.parse(content)] reads its argument as a string. *)
Definition parseResponse (response : AIMessage) : M HRDecision :=
  let content := content response in
  try_catch
    (result <- lift (JSON_parse (Content_toString content)) ;;
     st <- lift (get result "status") ;;
     rs <- lift (get result "reason") ;;
     cf <- lift (get result "confidence") ;;
     ts <- timestamp ;;
     ret {| status := st;
            decision_reason := rs;
            metadata := Some [("confidence", cf); ("evaluatedAt", VStr ts)] |})
    (fun _ => throw (ErrorObj ("Failed to parse AI response: " ++ Content_toString content))).

(** [const messages = [...]] *)
Definition messages (request : LeaveRequest) (employee : Employee)
           (context : Context) : list Message :=
  [SystemMessage "leave-approval: factors and JSON shape" [];
   HumanMessage "leave-approval: request and context"
     [VStr (name employee);
      VNum (leaveBalance employee);
      DateField_value (startDate request);
      DateField_value (endDate request);
      VStr (or_default (reason request) "Not specified");
      VNum (teamCoverage context);
      VStr (join_or_None (criticalProjects context))]].

Definition evaluate (request : LeaveRequest) (employee : Employee)
           (context : Context) : M HRDecision :=
  try_catch
    (BaseWorkflow.validateInputs request employee ;;;
     response <- invoke (model (messages request employee context)) ;;
     parseResponse response)
    (fun error => BaseWorkflow.handleError error).

End LeaveApprovalWorkflow.

(* ===================================================================== *)
(** * [workflows/complianceCheck.ts] *)
(* ===================================================================== *)

Module ComplianceCheckWorkflow.

Record ScanData : Type := mkScanData {
  workHours : list (string * Q);
  contracts : list (string * string);
  leaveRecords : list string
}.

Definition ScanData_value (data : ScanData) : value :=
  VObj [("workHours", VObj (map (fun kv => (fst kv, VNum (snd kv))) (workHours data)));
        ("contracts", VObj (map (fun kv => (fst kv, VStr (snd kv))) (contracts data)));
        ("leaveRecords", VArr (map VStr (leaveRecords data)))].

(** The text a [StringOutputParser] reads out of a reply: the string
    itself, or the text parts of a content array put together. *)
Definition StringOutputParser (c : Content) : string :=
  match c with
  | Text s => s
  | Parts parts =>
      String.concat EmptyString
        (map (fun p => match obj_get p "text" with VStr t => t | _ => EmptyString end) parts)
  end.

(** [complianceCheck.ts] imports [RunnableSequence], [ChatOpenAI] and
    [StringOutputParser]; the two message classes its chain constructs are
    not among its imports. *)
Definition SystemMessage_bound : bool := false.
Definition HumanMessage_bound : bool := false.

(** The second step of the chain,
    [(prev) => [new SystemMessage(...), new HumanMessage(prev.data)]]. *)
Definition chainMessages (input : value) : result (list Message) :=
  sys <-- construct SystemMessage_bound "SystemMessage"
            (SystemMessage "compliance-check: checks and JSON shape" []) ;;
  hum <-- construct HumanMessage_bound "HumanMessage"
            (HumanMessage "JSON.stringify(data, null, 2)" [input]) ;;
  Ok [sys; hum].

(** The model of the chain, at temperature 0. *)
Definition model (messages : list Message) : Call :=
  mkCall "gpt-3.5-turbo" 0 None messages.

(** [this.detectionChain.invoke(input)]: the steps of the sequence in
    order, the messages, the model, the output parser. *)
Definition detectionChain (input : value) : M string :=
  messages <- lift (chainMessages input) ;;
  response <- invoke (model messages) ;;
  ret (StringOutputParser (content response)).

(** The [try] block of [scan] with its [catch] (lines 64 to 73): what
    [scan] does with the text the chain hands it. *)
Definition scanResults (response : string) : M (list obj) :=
  try_catch
    (result <- lift (JSON_parse response) ;;
     issues <- lift (get result "issues") ;;
     array_map issues (fun issue =>
       ts <- timestamp ;;
       ret (obj_set (obj_set (spread issue) "detectedAt" (VStr ts)) "status" (VStr "OPEN"))))
    (fun _ => throw (ErrorObj ("Failed to parse compliance scan results: " ++ response))).

(** [detectionChain.invoke] stands before the [try], so what it throws
    leaves [scan] as it is. *)
Definition scan (data : ScanData) : M (list obj) :=
  response <- detectionChain (ScanData_value data) ;;
  scanResults response.

End ComplianceCheckWorkflow.

(* ===================================================================== *)
(** * [gptService.ts] *)
(* ===================================================================== *)

Module GPTService.

Inductive ModelName : Type := gpt_3_5_turbo | gpt_4_turbo.

Definition ModelName_text (m : ModelName) : string :=
  match m with
  | gpt_3_5_turbo => "gpt-3.5-turbo"
  | gpt_4_turbo => "gpt-4-turbo"
  end.

(** The fields of the service object; its audit logger and cost tracker
    are the sinks of the [World]. *)
Record t : Type := mkGPTService {
  cache : option string;
  currentModel : ModelName
}.

Definition new (cache : option string) : t := mkGPTService cache gpt_3_5_turbo.

Record ResponseMetadata : Type := mkResponseMetadata {
  model : string;
  tokensUsed : Z;
  processingTimeMs : Z
}.

Record GPTResponse (T : Type) : Type := mkGPTResponse {
  data : T;
  response_metadata : ResponseMetadata
}.
Arguments mkGPTResponse {T} data response_metadata.
Arguments data {T} g.
Arguments response_metadata {T} g.

(** What the host reports and this model does not compute: the length
    of [JSON.stringify(data)], and the lines of [new Error().stack],
    [None] where the engine gives an error no stack. *)
Record Host : Type := mkHost {
  stringify_length : forall T : Type, T -> Z;
  stack : option (list string)
}.

Record LeaveContext : Type := mkLeaveContext {
  employeeLeaveBalance : Q;
  teamCoverage : Q;
  projectDeadlines : list string
}.

Record HRData : Type := mkHRData {
  workHours : list (string * Q);
  contracts : list (string * string)
}.

Definition HRData_value (d : HRData) : value :=
  VObj [("workHours", VObj (map (fun kv => (fst kv, VNum (snd kv))) (workHours d)));
        ("contracts", VObj (map (fun kv => (fst kv, VStr (snd kv))) (contracts d)))].

(** [gptService.ts] imports [ChatOpenAI], [OpenAI] and [BaseCache] from
    LangChain; the two message classes its helpers construct are not among
    its imports. *)
Definition SystemMessage_bound : bool := false.
Definition HumanMessage_bound : bool := false.

Definition createSystemMessage (template : string) (args : list value)
  : result Message :=
  construct SystemMessage_bound "SystemMessage" (SystemMessage template args).

Definition createHumanMessage (template : string) (args : list value)
  : result Message :=
  construct HumanMessage_bound "HumanMessage" (HumanMessage template args).

Section Methods.

Variable host : Host.
Variable this : t.

Definition createModelInstance (messages : list Message) : Call :=
  mkCall (ModelName_text (currentModel this)) (2 # 10) (Some 1000) messages.

(** [typeof response.content === 'string' ? JSON.parse(response.content)
    : response.content] *)
Definition contentOf (response : AIMessage) : result value :=
  match content response with
  | Text s => JSON_parse s
  | Parts parts => Ok (VArr (map VObj parts))
  end.

Definition parseDecisionResponse (response : AIMessage) : result HRDecision :=
  match
    (content <-- contentOf response ;;
     decision <-- get content "decision" ;;
     rs <-- get content "reason" ;;
     cf <-- get content "confidence" ;;
     Ok {| status := decision;
           decision_reason := rs;
           metadata := Some [("confidence", cf);
                             ("model", VStr (ModelName_text (currentModel this)))] |})
  with
  | Ok d => Ok d
  | Throw _ =>
      Throw (ErrorObj ("Failed to parse AI response: "
                         ++ Content_toString (content response)))
  end.

Definition parseComplianceResponse (response : AIMessage) : M (list obj) :=
  try_catch
    (content <- lift (contentOf response) ;;
     issues <- lift (get content "issues") ;;
     array_map issues (fun issue =>
       ty <- lift (get issue "type") ;;
       sv <- lift (get issue "severity") ;;
       ds <- lift (get issue "description") ;;
       ts <- timestamp ;;
       ret [("type", ty); ("severity", sv); ("description", ds);
            ("detectedAt", VStr ts)]))
    (fun _ => throw (ErrorObj ("Failed to parse compliance response: "
                                 ++ Content_toString (content response)))).

(** [new Error().stack?.split('\n')[2].trim() || 'unknown']: without a
    stack the optional chain gives ['unknown']; with one, a missing third
    line makes [.trim()] throw. *)
Definition getCallerName : result string :=
  match stack host with
  | None => Ok "unknown"
  | Some lines =>
      match nth_error lines 2 with
      | Some line => Ok (or_default (Some (trim line)) "unknown")
      | None => Throw (ErrorObj "Cannot read properties of undefined (reading 'trim')")
      end
  end.

Definition createResponse {T : Type} (d : T) (startTime : Z) : M (GPTResponse T) :=
  t1 <- clock ;;
  let processingTimeMs := t1 - startTime in
  let estimatedTokens := Math_ceil_div4 (stringify_length host T d) in
  operation <- lift getCallerName ;;
  costTracker_trackUsage
    [("model", VStr (ModelName_text (currentModel this)));
     ("tokens", VNum (inject_Z estimatedTokens));
     ("operation", VStr operation)] ;;;
  ret (mkGPTResponse d
         (mkResponseMetadata (ModelName_text (currentModel this))
                             estimatedTokens processingTimeMs)).

(** Logs the failure, then throws its own error: it never returns. *)
Definition handleError (error : exn) (context : string) : M unit :=
  let errorMessage := message_or error "Unknown error" in
  auditLogger_log
    [("event", VStr "GPT_ERROR");
     ("context", VStr context);
     ("error", VStr errorMessage);
     ("model", VStr (ModelName_text (currentModel this)))] ;;;
  throw (ErrorObj ("[GPTService] " ++ errorMessage)).

(** [const messages = [...]] of [evaluateLeaveRequest]: the array is built
    in order, each message by its helper. *)
Definition leaveMessages (request : LeaveRequest) (context : LeaveContext)
  : result (list Message) :=
  sys <-- createSystemMessage "leave-request-evaluation: criteria and JSON shape"
            [VNum (employeeLeaveBalance context);
             VNum (teamCoverage context);
             VStr (join_or_None (projectDeadlines context))] ;;
  hum <-- createHumanMessage "leave-request-evaluation: request"
            [DateField_value (startDate request);
             DateField_value (endDate request);
             VStr (or_default (reason request) "Not specified")] ;;
  Ok [sys; hum].

(** The messages of [scanForComplianceIssues]. *)
Definition scanMessages (d : HRData) : result (list Message) :=
  sys <-- createSystemMessage "compliance-scan: checks and JSON shape" [] ;;
  hum <-- createHumanMessage "JSON.stringify(data, null, 2)" [HRData_value d] ;;
  Ok [sys; hum].

Definition evaluateLeaveRequest (request : LeaveRequest) (context : LeaveContext)
  : M (GPTResponse HRDecision) :=
  startTime <- clock ;;
  try_catch
    (messages <- lift (leaveMessages request context) ;;
     response <- invoke (createModelInstance messages) ;;
     result <- lift (parseDecisionResponse response) ;;
     createResponse result startTime)
    (fun error => handleError error "leave-request-evaluation" ;;; throw error).

Definition scanForComplianceIssues (d : HRData) : M (GPTResponse (list obj)) :=
  startTime <- clock ;;
  try_catch
    (messages <- lift (scanMessages d) ;;
     response <- invoke (createModelInstance messages) ;;
     result <- parseComplianceResponse response ;;
     createResponse result startTime)
    (fun error => handleError error "compliance-scan" ;;; throw error).

(** Upgrades the model to GPT-4-turbo if available; the result is the
    service object after the call. *)
Definition upgradeToGPT4 : M t :=
  flag <- getenv "ENABLE_GPT4" ;;
  if strictly_equals flag "true" then
    let upgraded := mkGPTService (cache this) gpt_4_turbo in
    auditLogger_log
      [("event", VStr "MODEL_UPGRADE");
       ("metadata", VObj [("newModel", VStr "gpt-4-turbo")])] ;;;
    ret upgraded
  else ret this.

End Methods.

End GPTService.

(* ===================================================================== *)
(** * The vocabulary of the specification *)
(* ===================================================================== *)

Definition statuses : list Status := [APPROVED; DENIED; FLAGGED; PENDING; ERROR].

(** The value is the name of one of the five statuses. *)
Definition is_status (v : value) : bool :=
  match v with
  | VStr s => existsb (fun st => String.eqb s (Status_name st)) statuses
  | _ => false
  end.

(** A fast-track approval: status APPROVED with [metadata.fastTracked]
    set to [true]. *)
Definition is_fast_track (d : HRDecision) : bool :=
  match status d, metadata d with
  | VStr s, Some m =>
      String.eqb s "APPROVED" &&
      match obj_get m "fastTracked" with
      | VBool b => b
      | _ => false
      end
  | _, _ => false
  end.

Definition decided (r : result HRDecision * World) : option HRDecision :=
  match fst r with
  | Ok d => Some d
  | Throw _ => None
  end.

(** [metadata.confidence] of a decision, [VUndef] when there is none. *)
Definition confidence (d : HRDecision) : value :=
  match metadata d with
  | Some m => obj_get m "confidence"
  | None => VUndef
  end.

(** A confidence, when present, lies in the closed interval from 0 to 1. *)
Definition in_unit_interval (v : value) : Prop :=
  match v with
  | VUndef => True
  | VNum q => (0 <= q /\ q <= 1)%Q
  | _ => False
  end.

(** The reply shape the two leave prompts ask the model for: an object
    whose decision field (named [key]) is one of the three words, whose
    reason is a string and whose confidence is a number. *)
Definition is_decision_word (v : value) : bool :=
  match v with
  | VStr s => String.eqb s "APPROVED" || String.eqb s "DENIED" || String.eqb s "FLAGGED"
  | _ => false
  end.

Definition is_string (v : value) : bool :=
  match v with VStr _ => true | _ => false end.

Definition is_number (v : value) : bool :=
  match v with VNum _ => true | _ => false end.

Definition matches_decision_schema (key : string) (v : value) : bool :=
  match v with
  | VObj o =>
      is_decision_word (obj_get o key) && is_string (obj_get o "reason")
        && is_number (obj_get o "confidence")
  | _ => false
  end.

(** The leave request of the worked example: Tuesday 2 January 2024 to
    Wednesday 3 January 2024, for the flu. *)
Definition flu_request (rid eid : string) : LeaveRequest :=
  mkLeaveRequest rid eid
    (DateOf (Some (Date.UTC 2024 1 2))) (DateOf (Some (Date.UTC 2024 1 3)))
    (Some "flu").

(** A world to run examples in: the clock at noon on 2 January 2024, a
    model that gives one fixed answer, empty sinks. *)
Definition sample_world (answer : Outcome) (enable_gpt4 : option string) (demo : bool) : World :=
  mkWorld (Date.UTC 2024 1 2 + 43200000) (fun _ => answer) (fun _ => 250)
          [] [] [] [] []
          (fun k => if String.eqb k "ENABLE_GPT4" then enable_gpt4 else None)
          demo.

Definition sample_host : GPTService.Host :=
  GPTService.mkHost (fun _ _ => 120)
    (Some ["Error"; "    at GPTService.getCallerName";
           "    at GPTService.createResponse"; "    at GPTService.run"]).

(** A request whose start date, 3 January 2024, comes after its end date,
    2 January 2024. *)
Definition reversed_request : LeaveRequest :=
  mkLeaveRequest "req-2" "emp-7"
    (DateOf (Some (Date.UTC 2024 1 3))) (DateOf (Some (Date.UTC 2024 1 2)))
    (Some "conference").

Definition sample_context : GPTService.LeaveContext :=
  GPTService.mkLeaveContext 12 80 [].

(** The audit event of a model upgrade. *)
Definition MODEL_UPGRADE : obj :=
  [("event", VStr "MODEL_UPGRADE");
   ("metadata", VObj [("newModel", VStr "gpt-4-turbo")])].

(** A reply in the decision shape whose confidence is 5. *)
Definition overconfident_reply : string :=
  JSON.dq "{'decision':'APPROVED','reason':'workload is light','confidence':5}".

(** A compliance reply with one issue, in the shape the prompts ask for. *)
Definition overtime_reply : string :=
  JSON.dq "{'issues':[{'type':'OVERTIME','severity':'HIGH','description':'52h week'}]}".

(** What a call of the service left behind names the model [name]: the
    response and the usage entry of a call that returned, the GPT_ERROR
    event of a call that threw. *)
Definition records_model {T : Type} (name : string) (w : World)
           (r : result (GPTService.GPTResponse T) * World) : Prop :=
  (exists resp usage,
     fst r = Ok resp
     /\ GPTService.model (GPTService.response_metadata resp) = name
     /\ costLog (snd r) = (costLog w ++ [usage])%list
     /\ obj_get usage "model" = VStr name)
  \/ (exists e event,
        fst r = Throw e
        /\ auditLog (snd r) = (auditLog w ++ [event])%list
        /\ obj_get event "event" = VStr "GPT_ERROR"
        /\ obj_get event "model" = VStr name).

(** [needle] occurs in [text]. *)
Definition mentions (needle text : string) : bool :=
  match String.index 0 needle text with
  | Some _ => true
  | None => false
  end.

(** A validation failure: an [Error] whose message carries one of the two
    messages of [validateRequest]. *)
Definition is_validation_error (e : exn) : bool :=
  match e with
  | ErrorObj m =>
      mentions "Start date cannot be after end date" m
      || mentions "Missing required dates in leave request" m
  | Thrown _ => false
  end.

(** The GPT_ERROR event [GPTService.handleError] logs. *)
Definition GPT_ERROR (this : GPTService.t) (context message : string) : obj :=
  [("event", VStr "GPT_ERROR");
   ("context", VStr context);
   ("error", VStr message);
   ("model", VStr (GPTService.ModelName_text (GPTService.currentModel this)))].

(* ===================================================================== *)
(** * Running the monad *)
(* ===================================================================== *)

Ltac run :=
  unfold bind, bindR, ret, throw, try_catch, lift, clock, timestamp, getenv,
    auditLogger_log, auditService_logOverride, costTracker_trackUsage,
    logDemoEvent; simpl.

(** Steps of the proof that the parser keeps its result under more fuel. *)
Ltac rewrite_tests :=
  repeat match goal with
         | H : ?x = _ |- context [?x] => rewrite H
         end.

Ltac leaf :=
  split;
  [ simpl in *; lia
  | let k := fresh "k" in
    let Hk := fresh "Hk" in
    intros k Hk; destruct k as [|k]; [simpl in *; lia|];
    cbn [JSON.parse_value JSON.parse_elements JSON.parse_members]; rewrite_tests; try reflexivity ].

(* ===================================================================== *)
(** * Objects and lists of results *)
(* ===================================================================== *)


Lemma obj_get_set_other (o : obj) (k k' : string) (v : value) :
  k <> k' -> obj_get (obj_set o k v) k' = obj_get o k'.
Proof.
  intro Hne. induction o as [|[k0 v0] rest IH]; simpl.
  - destruct (String.eqb_spec k' k); [congruence | reflexivity].
  - destruct (String.eqb_spec k k0) as [->|Hk]; simpl.
    + destruct (String.eqb_spec k' k0); [congruence | reflexivity].
    + destruct (String.eqb_spec k' k0); [reflexivity | exact IH].
Qed.



Lemma mapM_reader {A B : Type} (f : A -> M B) (g : World -> A -> B) :
  (forall x w, f x w = (Ok (g w x), w)) ->
  forall l w, mapM f l w = (Ok (map (g w) l), w).
Proof.
  intros Hf l w. induction l as [|x rest IH]; [reflexivity|].
  simpl. unfold bind. rewrite Hf, IH. reflexivity.
Qed.

Lemma mapM_preserves {A B : Type} (f : A -> M B) :
  (forall x w, snd (f x w) = w) ->
  forall l w, snd (mapM f l w) = w.
Proof.
  intros Hf l. induction l as [|x rest IH]; intro w; [reflexivity|].
  simpl. unfold bind. specialize (Hf x w).
  destruct (f x w) as [[y|e] w1]; simpl in Hf; subst w1; [|reflexivity].
  specialize (IH w). destruct (mapM f rest w) as [[ys|e] w2]; exact IH.
Qed.

Lemma mapM_throws {A B : Type} (f : A -> M B) (bad : A) :
  (forall w, exists e, fst (f bad w) = Throw e) ->
  forall l, In bad l -> forall w, exists e, fst (mapM f l w) = Throw e.
Proof.
  intros Hbad l. induction l as [|x rest IH]; intros Hin w; [contradiction|].
  simpl. unfold bind. destruct (f x w) as [[y|e] w1] eqn:Hx.
  - destruct Hin as [->|Hin].
    + destruct (Hbad w) as [e He]. rewrite Hx in He. discriminate.
    + destruct (IH Hin w1) as [e He].
      destruct (mapM f rest w1) as [[ys|e'] w2]; [discriminate|].
      eexists. reflexivity.
  - eexists. reflexivity.
Qed.

Lemma Forall2_map_self {A B : Type} (R : A -> B -> Prop) (g : A -> B) (l : list A) :
  (forall x, R x (g x)) -> Forall2 R l (map g l).
Proof. intro H. induction l; simpl; constructor; auto. Qed.

(* ===================================================================== *)
(** * The fuel of the JSON parser *)
(* ===================================================================== *)

Lemma skip_ws_length (s : list N) : (List.length (JSON.skip_ws s) <= List.length s)%nat.
Proof.
  induction s as [|c rest IH]; simpl; [lia|].
  destruct (JSON.is_ws c); simpl; lia.
Qed.

Lemma skip_ws_cons (s rest : list N) (c : N) :
  JSON.skip_ws s = c :: rest -> (List.length rest < List.length s)%nat.
Proof.
  intro H. pose proof (skip_ws_length s) as L. rewrite H in L. simpl in L. lia.
Qed.

Lemma strip_prefix_length (p : list N) :
  forall s r, JSON.strip_prefix p s = Some r ->
              List.length s = (List.length p + List.length r)%nat.
Proof.
  induction p as [|a p IH]; intros s r H; simpl in H.
  - injection H as <-. reflexivity.
  - destruct s as [|b s]; [discriminate|].
    destruct (a =? b)%N; [|discriminate].
    simpl. rewrite (IH _ _ H). reflexivity.
Qed.

Lemma parse_chars_length (n : nat) :
  forall s acc str r,
    (List.length s <= n)%nat ->
    JSON.parse_chars s acc = Some (str, r) -> (List.length r < List.length s)%nat.
Proof.
  induction n as [|n IH]; intros s acc str r Hn H.
  - destruct s; [discriminate | simpl in Hn; lia].
  - destruct s as [|c rest]; [discriminate|]. simpl in Hn. simpl in H.
    destruct (c =? 34)%N.
    { injection H as _ <-. simpl. lia. }
    destruct (c =? 92)%N.
    + destruct rest as [|e rest']; [discriminate|]. simpl in Hn.
      destruct (e =? 117)%N.
      * destruct rest' as [|a [|b [|c' [|d rest'']]]]; try discriminate.
        simpl in Hn.
        destruct (JSON.hex a), (JSON.hex b), (JSON.hex c'), (JSON.hex d); try discriminate.
        apply IH in H; simpl; lia.
      * destruct (JSON.escape e); [|discriminate].
        apply IH in H; simpl; lia.
    + destruct (c <? 32)%N; [discriminate|].
      apply IH in H; simpl; lia.
Qed.

Lemma take_digits_length (s : list N) :
  forall acc n v m r,
    JSON.take_digits s acc n = (v, m, r) ->
    (List.length r <= List.length s)%nat
    /\ (m = n -> r = s) /\ (n <= m)%nat.
Proof.
  induction s as [|c rest IH]; intros acc n v m r H; simpl in H.
  - injection H as _ <- <-. repeat split; auto.
  - destruct (JSON.is_digit c).
    + apply IH in H. destruct H as [H1 [H2 H3]]. simpl.
      repeat split; lia.
    + injection H as _ <- <-. repeat split; auto.
Qed.

Lemma parse_int_length (s : list N) (v : Z) (r : list N) :
  JSON.parse_int s = Some (v, r) -> (List.length r < List.length s)%nat.
Proof.
  unfold JSON.parse_int. destruct s as [|c rest]; [discriminate|].
  destruct (c =? 48)%N.
  - intro H. injection H as _ <-. simpl. lia.
  - destruct (JSON.is_digit c) eqn:D; [|discriminate].
    simpl. rewrite D.
    destruct (JSON.take_digits rest _ _) as [[v' m] r'] eqn:T.
    intro H. injection H as _ <-.
    apply take_digits_length in T. simpl. lia.
Qed.

Lemma parse_frac_length (s : list N) (v : Z) (n : nat) (r : list N) :
  JSON.parse_frac s = Some (v, n, r) -> (List.length r <= List.length s)%nat.
Proof.
  unfold JSON.parse_frac. destruct s as [|c rest].
  - intro H. injection H as _ _ <-. simpl. lia.
  - destruct (c =? 46)%N.
    + destruct (JSON.take_digits rest 0 0) as [[v' m] r'] eqn:T.
      destruct m; [discriminate|].
      intro H. injection H as _ _ <-.
      apply take_digits_length in T. simpl. lia.
    + intro H. injection H as _ _ <-. lia.
Qed.

Lemma parse_exp_length (s : list N) (v : Z) (r : list N) :
  JSON.parse_exp s = Some (v, r) -> (List.length r <= List.length s)%nat.
Proof.
  unfold JSON.parse_exp. destruct s as [|c rest].
  - intro H. injection H as _ <-. simpl. lia.
  - destruct ((c =? 101)%N || (c =? 69)%N).
    + assert (L : forall sg r1,
                 (match rest with
                  | d :: rest' =>
                      if (d =? 45)%N then (-1, rest')
                      else if (d =? 43)%N then (1, rest') else (1, rest)
                  | [] => (1, rest)
                  end) = (sg, r1) -> (List.length r1 <= List.length rest)%nat).
      { intros sg r1. destruct rest as [|d rest']; [intros [= _ <-]; lia|].
        destruct (d =? 45)%N; [intros [= _ <-]; simpl; lia|].
        destruct (d =? 43)%N; intros [= _ <-]; simpl; lia. }
      destruct (match rest with [] => _ | _ => _ end) as [sg r1].
      specialize (L _ _ eq_refl).
      destruct (JSON.take_digits r1 0 0) as [[v' m] r'] eqn:T.
      destruct m; [discriminate|].
      intro H. injection H as _ <-.
      apply take_digits_length in T. simpl. lia.
    + intro H. injection H as _ <-. lia.
Qed.

Lemma parse_number_length (s : list N) (q : Q) (r : list N) :
  JSON.parse_number s = Some (q, r) -> (List.length r < List.length s)%nat.
Proof.
  unfold JSON.parse_number.
  assert (L : forall sg s1,
             (match s with
              | c :: rest => if (c =? 45)%N then (-1, rest) else (1, s)
              | [] => (1, s)
              end) = (sg, s1) -> (List.length s1 <= List.length s)%nat).
  { intros sg s1. destruct s as [|c rest]; [intros [= _ <-]; lia|].
    destruct (c =? 45)%N; intros [= _ <-]; simpl; lia. }
  destruct (match s with [] => _ | _ => _ end) as [sg s1].
  specialize (L _ _ eq_refl).
  destruct (JSON.parse_int s1) as [[i s2]|] eqn:I; [|discriminate].
  destruct (JSON.parse_frac s2) as [[[f n] s3]|] eqn:F; [|discriminate].
  destruct (JSON.parse_exp s3) as [[e s4]|] eqn:X; [|discriminate].
  intro H. injection H as _ <-.
  apply parse_int_length in I. apply parse_frac_length in F.
  apply parse_exp_length in X. lia.
Qed.

Lemma parse_fuel (k : nat) :
  (forall s v r, JSON.parse_value k s = Some (v, r) ->
                 JSON.keeps _ (fun k' => JSON.parse_value k' s) s (v, r))
  /\ (forall s acc v r, JSON.parse_elements k s acc = Some (v, r) ->
                        JSON.keeps _ (fun k' => JSON.parse_elements k' s acc) s (v, r))
  /\ (forall s acc v r, JSON.parse_members k s acc = Some (v, r) ->
                        JSON.keeps _ (fun k' => JSON.parse_members k' s acc) s (v, r)).
Proof.
  induction k as [|k [IHv [IHe IHm]]]; [repeat split; discriminate|].
  unfold JSON.keeps in *. simpl snd in *.
  split; [|split].
  - intros s v r H. cbn [JSON.parse_value JSON.parse_elements JSON.parse_members] in H.
    destruct (JSON.skip_ws s) as [|c rest] eqn:W; [discriminate|].
    pose proof (skip_ws_cons _ _ _ W) as Lw.
    destruct (c =? 34)%N eqn:C1.
    { destruct (JSON.parse_chars rest []) as [[str r0]|] eqn:PC; [|discriminate].
      injection H as <- <-.
      pose proof (parse_chars_length _ _ _ _ _ (le_n _) PC). leaf. }
    destruct (c =? 91)%N eqn:C2.
    { destruct (JSON.skip_ws rest) as [|d r0] eqn:W2; [discriminate|].
      pose proof (skip_ws_cons _ _ _ W2) as Lw2.
      destruct (d =? 93)%N eqn:D.
      - injection H as <- <-. leaf.
      - destruct (IHe _ _ _ _ H) as [L Hrec]. leaf. apply Hrec. lia. }
    destruct (c =? 123)%N eqn:C3.
    { destruct (JSON.skip_ws rest) as [|d r0] eqn:W2; [discriminate|].
      pose proof (skip_ws_cons _ _ _ W2) as Lw2.
      destruct (d =? 125)%N eqn:D.
      - injection H as <- <-. leaf.
      - destruct (IHm _ _ _ _ H) as [L Hrec]. leaf. apply Hrec. lia. }
    destruct ((c =? 45)%N || JSON.is_digit c) eqn:C4.
    { destruct (JSON.parse_number (c :: rest)) as [[q r0]|] eqn:PN; [|discriminate].
      injection H as <- <-.
      pose proof (parse_number_length _ _ _ PN). leaf. }
    destruct (JSON.strip_prefix (JSON.codes "null") (c :: rest)) as [r0|] eqn:S1.
    { injection H as <- <-. pose proof (strip_prefix_length _ _ _ S1). leaf. }
    destruct (JSON.strip_prefix (JSON.codes "true") (c :: rest)) as [r0|] eqn:S2.
    { injection H as <- <-. pose proof (strip_prefix_length _ _ _ S2). leaf. }
    destruct (JSON.strip_prefix (JSON.codes "false") (c :: rest)) as [r0|] eqn:S3; [|discriminate].
    injection H as <- <-. pose proof (strip_prefix_length _ _ _ S3). leaf.
  - intros s acc v r H. cbn [JSON.parse_value JSON.parse_elements JSON.parse_members] in H.
    destruct (JSON.parse_value k s) as [[v1 r1]|] eqn:PV; [|discriminate].
    destruct (IHv _ _ _ PV) as [Lv Hv]. simpl in Lv, Hv.
    destruct (JSON.skip_ws r1) as [|d r'] eqn:W; [discriminate|].
    pose proof (skip_ws_cons _ _ _ W) as Lw.
    destruct (d =? 44)%N eqn:D1.
    + destruct (IHe _ _ _ _ H) as [L Hrec].
      split; [lia|]. intros k' Hk. destruct k' as [|k']; [lia|].
      cbn [JSON.parse_value JSON.parse_elements JSON.parse_members]. rewrite (Hv k') by lia. rewrite W, D1. apply Hrec. lia.
    + destruct (d =? 93)%N eqn:D2; [|discriminate].
      injection H as <- <-.
      split; [lia|]. intros k' Hk. destruct k' as [|k']; [lia|].
      cbn [JSON.parse_value JSON.parse_elements JSON.parse_members]. rewrite (Hv k') by lia. rewrite W, D1, D2. reflexivity.
  - intros s acc v r H. cbn [JSON.parse_value JSON.parse_elements JSON.parse_members] in H.
    destruct (JSON.skip_ws s) as [|q s1] eqn:W0; [discriminate|].
    pose proof (skip_ws_cons _ _ _ W0) as Lw0.
    destruct (q =? 34)%N eqn:Q1; [|discriminate].
    destruct (JSON.parse_chars s1 []) as [[key s2]|] eqn:PC; [|discriminate].
    pose proof (parse_chars_length _ _ _ _ _ (le_n _) PC) as Lc.
    destruct (JSON.skip_ws s2) as [|c s3] eqn:W1; [discriminate|].
    pose proof (skip_ws_cons _ _ _ W1) as Lw1.
    destruct (c =? 58)%N eqn:C1; [|discriminate].
    destruct (JSON.parse_value k s3) as [[v1 r1]|] eqn:PV; [|discriminate].
    destruct (IHv _ _ _ PV) as [Lv Hv]. simpl in Lv, Hv.
    destruct (JSON.skip_ws r1) as [|d r'] eqn:W; [discriminate|].
    pose proof (skip_ws_cons _ _ _ W) as Lw.
    destruct (d =? 44)%N eqn:D1.
    + destruct (IHm _ _ _ _ H) as [L Hrec].
      split; [lia|]. intros k' Hk. destruct k' as [|k']; [lia|].
      cbn [JSON.parse_value JSON.parse_elements JSON.parse_members]. rewrite W0, Q1, PC, W1, C1. rewrite (Hv k') by lia.
      rewrite W, D1. apply Hrec. lia.
    + destruct (d =? 125)%N eqn:D2; [|discriminate].
      injection H as <- <-.
      split; [lia|]. intros k' Hk. destruct k' as [|k']; [lia|].
      cbn [JSON.parse_value JSON.parse_elements JSON.parse_members]. rewrite W0, Q1, PC, W1, C1. rewrite (Hv k') by lia.
      rewrite W, D1, D2. reflexivity.
Qed.

(** The fuel [JSON.parse] gives its descent is enough: a text that any
    amount of fuel parses to the end is parsed, to the same value. *)
Theorem JSON_parse_fuel_suffices (raw : string) (k : nat) (v : value) (r : list N) :
  JSON.parse_value k (JSON.codes raw) = Some (v, r) ->
  JSON.skip_ws r = [] ->
  JSON.parse raw = Some v.
Proof.
  intros H Hr. destruct (proj1 (parse_fuel k) _ _ _ H) as [_ Hk].
  unfold JSON.parse. rewrite Hk by (simpl; lia). rewrite Hr. reflexivity.
Qed.

(* ===================================================================== *)
(** * Fast-track approval *)
(* ===================================================================== *)

(** The loop of [BaseAgent.calculateBusinessDays] stops on its own test:
    once the rounds reach past [end_], further rounds change nothing. *)
Lemma businessDaysLoop_stops (k n : nat) :
  forall current end_ count,
    end_ < current + Z.of_nat n * Date.msPerDay ->
    BaseAgent.businessDaysLoop (n + k) current end_ count
    = BaseAgent.businessDaysLoop n current end_ count.
Proof.
  unfold Date.msPerDay.
  induction n as [|n IH]; intros current end_ count H.
  - simpl. destruct k as [|k]; [reflexivity|]. simpl.
    destruct (Z.leb_spec current end_); [lia | reflexivity].
  - simpl Nat.add. cbn [BaseAgent.businessDaysLoop].
    destruct (current <=? end_); [|reflexivity].
    apply IH. unfold Date.msPerDay. lia.
Qed.

Lemma calculateBusinessDays_rounds_suffice (s e : Z) (k : nat) :
  BaseAgent.businessDaysLoop (Z.to_nat ((e - s) / Date.msPerDay + 1) + k) s e 0
  = BaseAgent.calculateBusinessDays (Some s) (Some e).
Proof.
  unfold BaseAgent.calculateBusinessDays. apply businessDaysLoop_stops.
  unfold Date.msPerDay.
  pose proof (Z.mod_pos_bound (e - s) 86400000 ltac:(lia)) as Hm.
  pose proof (Z.div_mod (e - s) 86400000 ltac:(lia)) as Hd.
  lia.
Qed.

Lemma Math_round_div (x : Z) (m : positive) :
  Math_round (x # m) = (x * 2 + Z.pos m) / (Z.pos m * 2).
Proof.
  unfold Math_round, Qplus, Qfloor. simpl. reflexivity.
Qed.

(** The day count of [fastApproval.ts] is at most 3 exactly when the two
    instants are less than three and a half days apart: it measures elapsed
    time and never looks at the day of the week. *)
Lemma fastApproval_threshold_is_elapsed_time (s e : Z) :
  (exists d, FastApprovalAgent.calculateBusinessDays (Some s) (Some e) = Some d
             /\ d <= FastApprovalAgent.FAST_APPROVAL_THRESHOLD_DAYS)
  <-> 2 * (e - s) < 7 * Date.msPerDay.
Proof.
  unfold FastApprovalAgent.calculateBusinessDays,
    FastApprovalAgent.FAST_APPROVAL_THRESHOLD_DAYS, Date.msPerDay.
  rewrite Math_round_div. split.
  - intros [d [Hd Hle]]. injection Hd as Hd. subst d.
    apply Z.nlt_ge in Hle. apply Z.nle_gt. intro Hbig. apply Hle.
    apply Z.lt_le_trans with (m := 4); [lia|].
    apply Z.div_le_lower_bound; lia.
  - intro Hlt. eexists. split; [reflexivity|].
    apply Z.lt_succ_r. apply Z.div_lt_upper_bound; lia.
Qed.

(** Where weekday counting and elapsed time part ways: Monday 1 to
    Thursday 4 January 2024 holds four weekdays and is fast-tracked;
    Thursday 4 to Monday 8 January holds three and is not. *)
Lemma fastApproval_ignores_weekends :
  BaseAgent.calculateBusinessDays (Some (Date.UTC 2024 1 1)) (Some (Date.UTC 2024 1 4)) = 4
  /\ FastApprovalAgent.calculateBusinessDays
       (Some (Date.UTC 2024 1 1)) (Some (Date.UTC 2024 1 4)) = Some 3
  /\ BaseAgent.calculateBusinessDays (Some (Date.UTC 2024 1 4)) (Some (Date.UTC 2024 1 8)) = 3
  /\ FastApprovalAgent.calculateBusinessDays
       (Some (Date.UTC 2024 1 4)) (Some (Date.UTC 2024 1 8)) = Some 4.
Proof. repeat split; vm_compute; reflexivity. Qed.

Lemma evaluate_short (request : LeaveRequest) (w : World) :
  FastApprovalAgent.checkLeaveDuration request = true ->
  FastApprovalAgent.evaluate request w =
    (Ok {| status := VStr "APPROVED";
           decision_reason := VStr "Qualifies for demo fast-track approval";
           metadata := Some [("fastTracked", VBool true);
                             ("checkedAt", VStr (Date.toISOString (now w)))] |},
     set_demoLog w (demoLog w ++ ["Fast-track approved leave for " ++ employeeId request])).
Proof.
  intro H. unfold FastApprovalAgent.evaluate, FastApprovalAgent.checkCalendarConflicts.
  rewrite H. reflexivity.
Qed.

Lemma evaluate_long (request : LeaveRequest) (w : World) :
  FastApprovalAgent.checkLeaveDuration request = false ->
  FastApprovalAgent.evaluate request w =
    (Ok {| status := VStr "PENDING";
           decision_reason := VStr "Does not meet fast-track criteria";
           metadata := None |}, w).
Proof.
  intro H. unfold FastApprovalAgent.evaluate. rewrite H. reflexivity.
Qed.

Lemma checkLeaveDuration_spec (request : LeaveRequest) :
  FastApprovalAgent.checkLeaveDuration request = true <->
  exists d,
    FastApprovalAgent.calculateBusinessDays
      (new_Date (startDate request)) (new_Date (endDate request)) = Some d
    /\ d <= FastApprovalAgent.FAST_APPROVAL_THRESHOLD_DAYS.
Proof.
  unfold FastApprovalAgent.checkLeaveDuration.
  destruct (FastApprovalAgent.calculateBusinessDays _ _) as [d|].
  - rewrite Z.leb_le. split.
    + intro H. exists d. split; [reflexivity | exact H].
    + intros [d' [Hd H]]. injection Hd as Hd. subst d'. exact H.
  - split; [discriminate|]. intros [d' [Hd _]]. discriminate.
Qed.

(** C1, as the code has it: [FastApprovalAgent.evaluate] reads no demo-mode
    flag.  For every leave request and every state of the world it returns
    a fast-track approval (status APPROVED, [metadata.fastTracked = true])
    if and only if the day count it computes from the start and end dates
    is a number no greater than the threshold of 3, and the decision is the
    same whether the demo-mode flag is on or off. *)
Theorem fast_track_iff_short_and_flag_blind (request : LeaveRequest) (w : World) :
  ((exists d, decided (FastApprovalAgent.evaluate request w) = Some d
              /\ is_fast_track d = true)
   <-> (exists n,
          FastApprovalAgent.calculateBusinessDays
            (new_Date (startDate request)) (new_Date (endDate request)) = Some n
          /\ n <= FastApprovalAgent.FAST_APPROVAL_THRESHOLD_DAYS))
  /\ (forall flag : bool,
        fst (FastApprovalAgent.evaluate request (set_demoMode w flag))
        = fst (FastApprovalAgent.evaluate request w)).
Proof.
  split.
  - rewrite <- checkLeaveDuration_spec.
    destruct (FastApprovalAgent.checkLeaveDuration request) eqn:E.
    + rewrite (evaluate_short _ _ E). split; [reflexivity|].
      intros _. eexists. split; reflexivity.
    + rewrite (evaluate_long _ _ E). split; [|discriminate].
      intros [d [Hd Hf]]. injection Hd as Hd. subst d. discriminate.
  - intro flag.
    destruct (FastApprovalAgent.checkLeaveDuration request) eqn:E.
    + rewrite !(evaluate_short _ _ E). reflexivity.
    + rewrite !(evaluate_long _ _ E). reflexivity.
Qed.

(** C1, as stated, fails: with the demo-mode flag off, the two-day request
    of the worked example is fast-tracked all the same, although the claim
    has the approval depend on the flag and never bypass the pipeline
    outside demo mode. *)
Lemma fast_track_with_demo_mode_off :
  ~ (forall (request : LeaveRequest) (w : World),
       ((exists d, decided (FastApprovalAgent.evaluate request w) = Some d
                   /\ is_fast_track d = true)
        <-> (BaseAgent.calculateBusinessDays
               (new_Date (startDate request)) (new_Date (endDate request)) <= 3
             /\ demoMode w = true))
       /\ (demoMode w = false ->
           forall d, decided (FastApprovalAgent.evaluate request w) = Some d ->
                     is_fast_track d = false)).
Proof.
  intro H.
  destruct (H (flu_request "req-1" "emp-7")
              (sample_world (Failure (ErrorObj "unused")) None false)) as [_ Hoff].
  specialize (Hoff eq_refl _ eq_refl). vm_compute in Hoff. discriminate.
Qed.

(** C8: the request from Tuesday 2 January 2024 to Wednesday 3 January
    2024 with reason "flu", evaluated with demo mode on, is approved with
    [metadata.fastTracked = true]. *)
Theorem flu_request_is_fast_tracked (rid eid : string) (w : World) :
  demoMode w = true ->
  Date.getDay (Date.UTC 2024 1 2) = 2 /\ Date.getDay (Date.UTC 2024 1 3) = 3
  /\ exists d w',
       FastApprovalAgent.evaluate (flu_request rid eid) w = (Ok d, w')
       /\ status d = VStr "APPROVED"
       /\ exists m, metadata d = Some m /\ obj_get m "fastTracked" = VBool true.
Proof.
  intros _. split; [reflexivity|]. split; [reflexivity|].
  rewrite evaluate_short by (vm_compute; reflexivity).
  eexists. eexists. split; [reflexivity|]. split; [reflexivity|].
  eexists. split; reflexivity.
Qed.

Lemma flu_request_is_fast_tracked_witness :
  demoMode (sample_world (Failure (ErrorObj "unused")) None true) = true
  /\ exists d w',
       FastApprovalAgent.evaluate (flu_request "req-1" "emp-7")
         (sample_world (Failure (ErrorObj "unused")) None true) = (Ok d, w')
       /\ status d = VStr "APPROVED"
       /\ exists m, metadata d = Some m /\ obj_get m "fastTracked" = VBool true.
Proof.
  split; [reflexivity|].
  apply (flu_request_is_fast_tracked "req-1" "emp-7"
           (sample_world (Failure (ErrorObj "unused")) None true)).
  reflexivity.
Defined.

(** C9: [FastApprovalAgent.evaluate] is total.  On every leave request it
    returns a decision and throws nothing; the decision is either APPROVED,
    with its reason and [fastTracked] metadata, or PENDING, with its
    reason, and so never DENIED, FLAGGED or ERROR. *)
Theorem fast_approval_total (request : LeaveRequest) (w : World) :
  exists d w',
    FastApprovalAgent.evaluate request w = (Ok d, w')
    /\ ((status d = VStr "APPROVED"
         /\ decision_reason d = VStr "Qualifies for demo fast-track approval"
         /\ exists m, metadata d = Some m /\ obj_get m "fastTracked" = VBool true)
        \/ (status d = VStr "PENDING"
            /\ decision_reason d = VStr "Does not meet fast-track criteria"))
    /\ status d <> VStr "DENIED" /\ status d <> VStr "FLAGGED"
    /\ status d <> VStr "ERROR".
Proof.
  destruct (FastApprovalAgent.checkLeaveDuration request) eqn:E.
  - rewrite (evaluate_short _ _ E). eexists. eexists.
    split; [reflexivity|]. split.
    + left. split; [reflexivity|]. split; [reflexivity|].
      eexists. split; reflexivity.
    + simpl. repeat split; discriminate.
  - rewrite (evaluate_long _ _ E). eexists. eexists.
    split; [reflexivity|]. split.
    + right. split; reflexivity.
    + simpl. repeat split; discriminate.
Qed.

(* ===================================================================== *)
(** * Emergency override *)
(* ===================================================================== *)

Lemma below_level_3_unauthorized (manager : HRManager) :
  (clearanceLevel manager < 3)%Q ->
  EmergencyOverrideAgent.isAuthorizedForOverride manager = false.
Proof.
  intro H. unfold EmergencyOverrideAgent.isAuthorizedForOverride.
  destruct (Qle_bool 3 (clearanceLevel manager)) eqn:E; [|reflexivity].
  apply Qle_bool_iff in E. exfalso. exact (Qlt_not_le _ _ H E).
Qed.

Lemma level_3_authorized (manager : HRManager) :
  (3 <= clearanceLevel manager)%Q ->
  EmergencyOverrideAgent.isAuthorizedForOverride manager = true.
Proof.
  intro H. unfold EmergencyOverrideAgent.isAuthorizedForOverride.
  apply Qle_bool_iff. exact H.
Qed.

(** C5: [EmergencyOverrideAgent.forceApprove].  When the manager's
    clearance level is below 3 the call fails with the authorization error
    and leaves every sink as it was, so that no audit record is written.
    When it is 3 or more, the call appends one override record, holding the
    request id, the manager id and the justification, and returns an
    APPROVED decision. *)
Theorem forceApprove_authorization_and_audit
        (request : LeaveRequest) (manager : HRManager) (justification : string)
        (w : World) :
  ((clearanceLevel manager < 3)%Q ->
   EmergencyOverrideAgent.forceApprove request manager justification w
   = (Throw (ErrorObj "Manager not authorized for emergency overrides"), w))
  /\ ((3 <= clearanceLevel manager)%Q ->
      exists d w' entry,
        EmergencyOverrideAgent.forceApprove request manager justification w = (Ok d, w')
        /\ status d = VStr "APPROVED"
        /\ overrideLog w' = (overrideLog w ++ [entry])%list
        /\ obj_get entry "requestId" = VStr (id request)
        /\ obj_get entry "managerId" = VStr (manager_id manager)
        /\ obj_get entry "justification" = VStr justification).
Proof.
  unfold EmergencyOverrideAgent.forceApprove. split; intro H.
  - rewrite (below_level_3_unauthorized _ H). reflexivity.
  - rewrite (level_3_authorized _ H). run.
    eexists. eexists. eexists. split; [reflexivity|].
    repeat split; reflexivity.
Qed.

(* ===================================================================== *)
(** * Model upgrade *)
(* ===================================================================== *)

Lemma strictly_equals_iff (x : option string) (s : string) :
  strictly_equals x s = true <-> x = Some s.
Proof.
  destruct x as [v|]; simpl.
  - rewrite String.eqb_eq. split; [intros ->; reflexivity | intros [= ->]; reflexivity].
  - split; discriminate.
Qed.

Lemma app_one_neq {A : Type} (l : list A) (x : A) : (l ++ [x])%list <> l.
Proof.
  intro H. apply (f_equal (@List.length A)) in H.
  rewrite length_app in H. simpl in H. lia.
Qed.

(** C10: [GPTService.upgradeToGPT4] returns normally.  It writes the
    MODEL_UPGRADE audit event if and only if [ENABLE_GPT4] is ['true'], and
    then sets [currentModel] to gpt-4-turbo and changes nothing else;
    otherwise the service object and the whole world stay as they were. *)
Theorem upgradeToGPT4_iff_enabled (this : GPTService.t) (w : World) :
  exists this' w',
    GPTService.upgradeToGPT4 this w = (Ok this', w')
    /\ (auditLog w' = (auditLog w ++ [MODEL_UPGRADE])%list
        <-> env w "ENABLE_GPT4" = Some "true")
    /\ (env w "ENABLE_GPT4" = Some "true" ->
        GPTService.currentModel this' = GPTService.gpt_4_turbo
        /\ GPTService.cache this' = GPTService.cache this
        /\ w' = set_auditLog w (auditLog w ++ [MODEL_UPGRADE]))
    /\ (env w "ENABLE_GPT4" <> Some "true" -> this' = this /\ w' = w).
Proof.
  unfold GPTService.upgradeToGPT4. run.
  destruct (strictly_equals (env w "ENABLE_GPT4") "true") eqn:E.
  - apply strictly_equals_iff in E.
    eexists. eexists. split; [reflexivity|]. simpl. split; [|split].
    + split; [intros _; exact E | intros _; reflexivity].
    + intros _. repeat split; reflexivity.
    + intro H. contradiction.
  - assert (Hne : env w "ENABLE_GPT4" <> Some "true").
    { intro H. apply strictly_equals_iff in H. congruence. }
    eexists. eexists. split; [reflexivity|]. split; [|split].
    + split; [intro H; symmetry in H; exfalso; exact (app_one_neq _ _ H)
             | intro H; contradiction].
    + intro H. contradiction.
    + intros _. split; reflexivity.
Qed.

(* ===================================================================== *)
(** * Validation of the dates *)
(* ===================================================================== *)

Lemma gt_dates_present (request : LeaveRequest) :
  Date.gt (new_Date (startDate request)) (new_Date (endDate request)) = true ->
  absent (startDate request) || absent (endDate request) = false.
Proof.
  destruct (startDate request) as [|[s|]], (endDate request) as [|[e|]];
    simpl; intro H; try discriminate; reflexivity.
Qed.

(** The errors of validation are told by their messages, also after a
    handler has put its own words before them. *)
Lemma validation_errors_are_recognised :
  is_validation_error (ErrorObj "Start date cannot be after end date") = true
  /\ is_validation_error (ErrorObj "Missing required dates in leave request") = true
  /\ is_validation_error
       (ErrorObj "[GPTService] Start date cannot be after end date") = true
  /\ is_validation_error (ErrorObj "[GPTService] SystemMessage is not defined") = false.
Proof. repeat split. Qed.

(** As they are written, the two operations of [GPTService] end at their
    first message: [createSystemMessage] throws, the failure is logged and
    it is thrown again under the name of the service. *)
Lemma evaluateLeaveRequest_run
      (host : GPTService.Host) (this : GPTService.t) (request : LeaveRequest)
      (context : GPTService.LeaveContext) (w : World) :
  GPTService.evaluateLeaveRequest host this request context w
  = (Throw (ErrorObj "[GPTService] SystemMessage is not defined"),
     set_auditLog w
       (auditLog w
          ++ [GPT_ERROR this "leave-request-evaluation" "SystemMessage is not defined"])).
Proof. reflexivity. Qed.

Lemma scanForComplianceIssues_run
      (host : GPTService.Host) (this : GPTService.t) (d : GPTService.HRData)
      (w : World) :
  GPTService.scanForComplianceIssues host this d w
  = (Throw (ErrorObj "[GPTService] SystemMessage is not defined"),
     set_auditLog w
       (auditLog w ++ [GPT_ERROR this "compliance-scan" "SystemMessage is not defined"])).
Proof. reflexivity. Qed.

(** C2, as the code has it: for every leave request whose start date is
    strictly after its end date, [BaseAgent.validateRequest] throws "Start
    date cannot be after end date" and touches nothing, and
    [LeaveApprovalWorkflow.evaluate] ends in an ERROR decision with the
    world, and so the list of model calls, unchanged.
    [GPTService.evaluateLeaveRequest] has no validation of the dates: no
    error it throws for such a request is a validation error. *)
Theorem reversed_dates_fail_validation (request : LeaveRequest) :
  Date.gt (new_Date (startDate request)) (new_Date (endDate request)) = true ->
  (forall w,
     BaseAgent.validateRequest request w
     = (Throw (ErrorObj "Start date cannot be after end date"), w))
  /\ (forall employee context w,
        exists d,
          LeaveApprovalWorkflow.evaluate request employee context w = (Ok d, w)
          /\ status d = VStr "ERROR"
          /\ decision_reason d
             = VStr "Failed to process request: Start date cannot be after end date")
  /\ (forall host this context w e,
        fst (GPTService.evaluateLeaveRequest host this request context w) = Throw e ->
        is_validation_error e = false).
Proof.
  intro H. pose proof (gt_dates_present _ H) as Hp. split; [|split].
  - intro w. unfold BaseAgent.validateRequest. rewrite Hp, H. reflexivity.
  - intros employee context w.
    unfold LeaveApprovalWorkflow.evaluate, BaseWorkflow.validateInputs.
    rewrite Hp, H. run. eexists. repeat split; reflexivity.
  - intros host this context w e. rewrite evaluateLeaveRequest_run.
    intros [= <-]. reflexivity.
Qed.

Lemma reversed_dates_fail_validation_witness :
  Date.gt (new_Date (startDate reversed_request))
          (new_Date (endDate reversed_request)) = true
  /\ BaseAgent.validateRequest reversed_request
       (sample_world (Failure (ErrorObj "unused")) None false)
     = (Throw (ErrorObj "Start date cannot be after end date"),
        sample_world (Failure (ErrorObj "unused")) None false).
Proof.
  split; [reflexivity|].
  apply (reversed_dates_fail_validation reversed_request). reflexivity.
Defined.

(** C2, as stated, fails for [GPTService.evaluateLeaveRequest]: given the
    request from 3 January back to 2 January, what it throws is not a
    validation failure; the message names neither the dates nor their
    order. *)
Lemma gptService_failure_is_not_validation :
  ~ (forall (host : GPTService.Host) (this : GPTService.t) (request : LeaveRequest)
            (context : GPTService.LeaveContext) (w : World),
       Date.gt (new_Date (startDate request)) (new_Date (endDate request)) = true ->
       exists e w',
         GPTService.evaluateLeaveRequest host this request context w = (Throw e, w')
         /\ is_validation_error e = true
         /\ modelCalls w' = modelCalls w).
Proof.
  intro H.
  destruct (H sample_host (GPTService.new None) reversed_request sample_context
              (sample_world (Reply (Text overconfident_reply)) None false)
              eq_refl) as [e [w' [Hrun [Hv _]]]].
  rewrite evaluateLeaveRequest_run in Hrun. injection Hrun as <- _.
  vm_compute in Hv. discriminate.
Qed.

(* ===================================================================== *)
(** * Mapping a reply to a decision *)
(* ===================================================================== *)

Lemma decision_word_is_status (v : value) :
  is_decision_word v = true -> is_status v = true.
Proof.
  destruct v as [| | | |s| | |]; simpl; try discriminate.
  destruct (String.eqb_spec s "APPROVED") as [->|_]; [reflexivity|].
  destruct (String.eqb_spec s "DENIED") as [->|_]; [reflexivity|].
  destruct (String.eqb_spec s "FLAGGED") as [->|_]; [reflexivity|].
  discriminate.
Qed.

Lemma schema_fields (key : string) (v : value) :
  matches_decision_schema key v = true ->
  exists o q,
    v = VObj o /\ is_decision_word (obj_get o key) = true
    /\ obj_get o "confidence" = VNum q.
Proof.
  destruct v as [| | | | | |o|]; simpl; try discriminate.
  intro H. apply andb_prop in H. destruct H as [H Hc].
  apply andb_prop in H. destruct H as [Hw _].
  destruct (obj_get o "confidence") as [| | |q| | | |] eqn:E; try discriminate.
  exists o, q. repeat split; assumption.
Qed.

Lemma JSON_parse_some (raw : string) (v : value) :
  JSON.parse raw = Some v -> JSON_parse raw = Ok v.
Proof. intro H. unfold JSON_parse. rewrite H. reflexivity. Qed.

Lemma JSON_parse_none (raw : string) :
  JSON.parse raw = None -> exists e, JSON_parse raw = Throw e.
Proof. intro H. unfold JSON_parse. rewrite H. eexists. reflexivity. Qed.

(** C3, as the code has it: for every reply in the decision shape, both
    decision mappers succeed and copy the reply.  The status is the reply's
    decision word, one of APPROVED, DENIED and FLAGGED and so one of the
    five statuses; the confidence is the reply's number, unchanged, and
    lies between 0 and 1 exactly when the reply's does. *)
Theorem decision_mapping_copies_reply (raw : string) (v : value) :
  JSON.parse raw = Some v ->
  (matches_decision_schema "decision" v = true ->
   forall this, exists d q,
     GPTService.parseDecisionResponse this (mkAIMessage (Text raw)) = Ok d
     /\ get v "decision" = Ok (status d)
     /\ is_decision_word (status d) = true /\ is_status (status d) = true
     /\ get v "confidence" = Ok (VNum q) /\ confidence d = VNum q)
  /\ (matches_decision_schema "status" v = true ->
      forall w, exists d q,
        LeaveApprovalWorkflow.parseResponse (mkAIMessage (Text raw)) w = (Ok d, w)
        /\ get v "status" = Ok (status d)
        /\ is_decision_word (status d) = true /\ is_status (status d) = true
        /\ get v "confidence" = Ok (VNum q) /\ confidence d = VNum q).
Proof.
  intro Hp. apply JSON_parse_some in Hp. split; intro Hs.
  - intro this. destruct (schema_fields _ _ Hs) as [o [q [-> [Hw Hq]]]].
    unfold GPTService.parseDecisionResponse, GPTService.contentOf. simpl.
    rewrite Hp. simpl. eexists. exists q.
    split; [reflexivity|]. simpl. unfold confidence. simpl.
    repeat split; auto using decision_word_is_status; congruence.
  - intro w. destruct (schema_fields _ _ Hs) as [o [q [-> [Hw Hq]]]].
    unfold LeaveApprovalWorkflow.parseResponse. run.
    rewrite Hp. simpl. eexists. exists q.
    split; [reflexivity|]. simpl. unfold confidence. simpl.
    repeat split; auto using decision_word_is_status; congruence.
Qed.

Lemma decision_mapping_copies_reply_witness :
  exists d q,
    GPTService.parseDecisionResponse (GPTService.new None)
      (mkAIMessage (Text overconfident_reply)) = Ok d
    /\ get (VObj [("decision", VStr "APPROVED"); ("reason", VStr "workload is light");
                  ("confidence", VNum 5)]) "decision" = Ok (status d)
    /\ is_decision_word (status d) = true /\ is_status (status d) = true
    /\ get (VObj [("decision", VStr "APPROVED"); ("reason", VStr "workload is light");
                  ("confidence", VNum 5)]) "confidence" = Ok (VNum q)
    /\ confidence d = VNum q.
Proof.
  refine (proj1 (decision_mapping_copies_reply overconfident_reply _ _) _ _).
  - vm_compute. reflexivity.
  - reflexivity.
Defined.

(** C3, as stated, fails: a reply in the decision shape with confidence 5
    is mapped to a decision whose confidence is 5, outside the interval
    from 0 to 1. *)
Lemma decision_confidence_out_of_range :
  ~ (forall (this : GPTService.t) (raw : string) (v : value),
       JSON.parse raw = Some v ->
       matches_decision_schema "decision" v = true ->
       exists d,
         GPTService.parseDecisionResponse this (mkAIMessage (Text raw)) = Ok d
         /\ is_status (status d) = true
         /\ in_unit_interval (confidence d)).
Proof.
  intro H.
  assert (Hp : JSON.parse overconfident_reply
               = Some (VObj [("decision", VStr "APPROVED");
                             ("reason", VStr "workload is light");
                             ("confidence", VNum 5)]))
    by (vm_compute; reflexivity).
  destruct (H (GPTService.new None) _ _ Hp eq_refl) as [d [Hd [_ Hc]]].
  vm_compute in Hd. injection Hd as <-.
  unfold confidence in Hc. simpl in Hc. destruct Hc as [_ Hc].
  unfold Qle in Hc. simpl in Hc. lia.
Qed.

(* ===================================================================== *)
(** * Replies that are not JSON *)
(* ===================================================================== *)

(** C4: for every reply text that is not valid JSON, each of the four
    parsing operations fails with an error whose message ends in the raw
    text, and so returns no result record: the two parsers of
    [GPTService], [LeaveApprovalWorkflow.parseResponse] and the [try]
    block of [ComplianceCheckWorkflow.scan], where its parsing is. *)
Theorem invalid_json_is_a_parse_error (raw : string) :
  JSON.parse raw = None ->
  (forall this,
     GPTService.parseDecisionResponse this (mkAIMessage (Text raw))
     = Throw (ErrorObj ("Failed to parse AI response: " ++ raw)))
  /\ (forall w,
        GPTService.parseComplianceResponse (mkAIMessage (Text raw)) w
        = (Throw (ErrorObj ("Failed to parse compliance response: " ++ raw)), w))
  /\ (forall w,
        LeaveApprovalWorkflow.parseResponse (mkAIMessage (Text raw)) w
        = (Throw (ErrorObj ("Failed to parse AI response: " ++ raw)), w))
  /\ (forall w,
        ComplianceCheckWorkflow.scanResults raw w
        = (Throw (ErrorObj ("Failed to parse compliance scan results: " ++ raw)), w)).
Proof.
  intro Hn. destruct (JSON_parse_none _ Hn) as [e He].
  split; [|split; [|split]].
  - intro this. unfold GPTService.parseDecisionResponse, GPTService.contentOf.
    simpl. rewrite He. reflexivity.
  - intro w. unfold GPTService.parseComplianceResponse, GPTService.contentOf.
    run. rewrite He. reflexivity.
  - intro w. unfold LeaveApprovalWorkflow.parseResponse. run.
    rewrite He. reflexivity.
  - intro w. unfold ComplianceCheckWorkflow.scanResults. run.
    rewrite He. reflexivity.
Qed.

Lemma invalid_json_is_a_parse_error_witness :
  JSON.parse "Sure! The request looks fine to me." = None
  /\ LeaveApprovalWorkflow.parseResponse
       (mkAIMessage (Text "Sure! The request looks fine to me."))
       (sample_world (Failure (ErrorObj "unused")) None false)
     = (Throw (ErrorObj "Failed to parse AI response: Sure! The request looks fine to me."),
        sample_world (Failure (ErrorObj "unused")) None false).
Proof.
  split; [vm_compute; reflexivity|].
  apply (invalid_json_is_a_parse_error "Sure! The request looks fine to me.").
  vm_compute. reflexivity.
Defined.

(* ===================================================================== *)
(** * What becomes of a failure *)
(* ===================================================================== *)











(* ===================================================================== *)
(** * Compliance alerts *)
(* ===================================================================== *)





(* ===================================================================== *)
(** * Counting business days *)
(* ===================================================================== *)

Lemma businessDaysLoop_bounds (n : nat) :
  forall current end_ count,
    count <= BaseAgent.businessDaysLoop n current end_ count <= count + Z.of_nat n.
Proof.
  induction n as [|n IH]; intros current end_ count; [simpl; lia|].
  cbn [BaseAgent.businessDaysLoop].
  destruct (current <=? end_); [|lia].
  destruct (negb (Date.getDay current =? 0) && negb (Date.getDay current =? 6)).
  - specialize (IH (current + Date.msPerDay) end_ (count + 1)). lia.
  - specialize (IH (current + Date.msPerDay) end_ count). lia.
Qed.

(** While the test [current <= end] holds, the rounds run one after the
    other. *)
Lemma businessDaysLoop_split (n m : nat) :
  forall current end_ count,
    (n = O \/ current + (Z.of_nat n - 1) * Date.msPerDay <= end_) ->
    BaseAgent.businessDaysLoop (n + m) current end_ count
    = BaseAgent.businessDaysLoop m (current + Z.of_nat n * Date.msPerDay) end_
        (BaseAgent.businessDaysLoop n current end_ count).
Proof.
  unfold Date.msPerDay.
  induction n as [|n IH]; intros current end_ count H.
  - simpl. f_equal. lia.
  - destruct H as [H|H]; [discriminate|].
    simpl Nat.add. cbn [BaseAgent.businessDaysLoop].
    destruct (Z.leb_spec current end_) as [_|Hgt]; [|lia].
    rewrite IH.
    + f_equal. unfold Date.msPerDay. lia.
    + destruct n as [|n]; [left; reflexivity | right; unfold Date.msPerDay; lia].
Qed.

(** Rounds that pass the test for one end date and for another count the
    same days. *)
Lemma businessDaysLoop_same_rounds (n : nat) :
  forall current end1 end2 count,
    (n = O \/ (current + (Z.of_nat n - 1) * Date.msPerDay <= end1
               /\ current + (Z.of_nat n - 1) * Date.msPerDay <= end2)) ->
    BaseAgent.businessDaysLoop n current end1 count
    = BaseAgent.businessDaysLoop n current end2 count.
Proof.
  unfold Date.msPerDay.
  induction n as [|n IH]; intros current end1 end2 count H; [reflexivity|].
  destruct H as [H|[H1 H2]]; [discriminate|].
  cbn [BaseAgent.businessDaysLoop].
  destruct (Z.leb_spec current end1) as [_|Hgt]; [|lia].
  destruct (Z.leb_spec current end2) as [_|Hgt]; [|lia].
  apply IH.
  destruct n as [|n]; [left; reflexivity | right; unfold Date.msPerDay; lia].
Qed.

Lemma businessDaysLoop_step (n : nat) (current end_ count : Z) :
  current <= end_ ->
  BaseAgent.businessDaysLoop (S n) current end_ count
  = BaseAgent.businessDaysLoop n (current + Date.msPerDay) end_
      (if negb (Date.getDay current =? 0) && negb (Date.getDay current =? 6)
       then count + 1 else count).
Proof.
  intro H. cbn [BaseAgent.businessDaysLoop].
  destruct (Z.leb_spec current end_); [reflexivity | lia].
Qed.

Lemma getDay_next (t : Z) :
  Date.getDay (t + Date.msPerDay) = (Date.getDay t + 1) mod 7.
Proof.
  unfold Date.getDay, Date.msPerDay.
  replace (t + 86400000) with (t + 1 * 86400000) by lia.
  rewrite Z.div_add by lia.
  rewrite Zplus_mod_idemp_l. f_equal. lia.
Qed.

Lemma getDay_range (t : Z) : 0 <= Date.getDay t < 7.
Proof. unfold Date.getDay. apply Z.mod_pos_bound. lia. Qed.

(** Seven rounds in a row meet every day of the week once, and count five
    of them. *)
Lemma businessDaysLoop_week (current end_ count : Z) :
  current + 6 * Date.msPerDay <= end_ ->
  BaseAgent.businessDaysLoop 7 current end_ count = count + 5.
Proof.
  intro H.
  do 7 (rewrite businessDaysLoop_step by (unfold Date.msPerDay in *; lia)).
  cbn [BaseAgent.businessDaysLoop].
  rewrite !getDay_next.
  pose proof (getDay_range current) as R.
  assert (C : Date.getDay current = 0 \/ Date.getDay current = 1
              \/ Date.getDay current = 2 \/ Date.getDay current = 3
              \/ Date.getDay current = 4 \/ Date.getDay current = 5
              \/ Date.getDay current = 6) by lia.
  destruct C as [C|[C|[C|[C|[C|[C|C]]]]]]; rewrite C; cbn; lia.
Qed.

(** X1: [BaseAgent.calculateBusinessDays] leaves weekends out.  Moving the
    end date one week later adds exactly five days to the count, whatever
    the day of the week and the time of day of either date. *)
Theorem business_days_week_adds_five (s e : Z) :
  s <= e ->
  BaseAgent.calculateBusinessDays (Some s) (Some (e + 7 * Date.msPerDay))
  = BaseAgent.calculateBusinessDays (Some s) (Some e) + 5.
Proof.
  intro H. unfold BaseAgent.calculateBusinessDays.
  pose proof (Z.mod_pos_bound (e - s) Date.msPerDay ltac:(unfold Date.msPerDay; lia)) as Hm.
  pose proof (Z.div_mod (e - s) Date.msPerDay ltac:(unfold Date.msPerDay; lia)) as Hd.
  assert (Hq : 0 <= (e - s) / Date.msPerDay)
    by (apply Z.div_pos; unfold Date.msPerDay; lia).
  replace (e + 7 * Date.msPerDay - s) with (e - s + 7 * Date.msPerDay) by lia.
  rewrite Z.div_add by (unfold Date.msPerDay; lia).
  replace (Z.to_nat ((e - s) / Date.msPerDay + 7 + 1))
    with (Z.to_nat ((e - s) / Date.msPerDay + 1) + 7)%nat by lia.
  rewrite businessDaysLoop_split by (right; rewrite Z2Nat.id by lia; lia).
  rewrite businessDaysLoop_week by (rewrite Z2Nat.id by lia; lia).
  f_equal. apply businessDaysLoop_same_rounds.
  right. rewrite Z2Nat.id by lia. split; lia.
Qed.

Lemma business_days_week_adds_five_witness :
  Date.UTC 2024 1 3 <= Date.UTC 2024 1 5
  /\ BaseAgent.calculateBusinessDays
       (Some (Date.UTC 2024 1 3)) (Some (Date.UTC 2024 1 5 + 7 * Date.msPerDay))
     = BaseAgent.calculateBusinessDays
         (Some (Date.UTC 2024 1 3)) (Some (Date.UTC 2024 1 5)) + 5.
Proof.
  split; [vm_compute; discriminate|].
  apply (business_days_week_adds_five (Date.UTC 2024 1 3) (Date.UTC 2024 1 5)).
  vm_compute. discriminate.
Defined.

(** X2: for a process whose time zone is UTC, the count of
    [BaseAgent.calculateBusinessDays] is never negative and never more
    than the number of days the loop visits, one per started 24 hours from
    start to end; it is 0 when the start is after the end and when either
    date is invalid. *)
Theorem business_days_bounds (start end_ : Date.time) :
  0 <= BaseAgent.calculateBusinessDays start end_
  /\ (forall s e, start = Some s -> end_ = Some e -> s <= e ->
                  BaseAgent.calculateBusinessDays start end_
                  <= (e - s) / Date.msPerDay + 1)
  /\ (Date.gt start end_ = true -> BaseAgent.calculateBusinessDays start end_ = 0)
  /\ (start = None \/ end_ = None -> BaseAgent.calculateBusinessDays start end_ = 0).
Proof.
  unfold BaseAgent.calculateBusinessDays.
  destruct start as [s|], end_ as [e|]; simpl;
    try (repeat split; try lia; try discriminate; intros; discriminate).
  pose proof (businessDaysLoop_bounds
                (Z.to_nat ((e - s) / Date.msPerDay + 1)) s e 0) as B.
  split; [lia|]. split; [|split].
  - intros s' e' [= <-] [= <-] Hle.
    assert (0 <= (e - s) / Date.msPerDay)
      by (apply Z.div_pos; unfold Date.msPerDay; lia).
    lia.
  - intro Hgt. apply Z.ltb_lt in Hgt.
    assert (Hneg : (e - s) / Date.msPerDay < 0)
      by (apply Z.div_lt_upper_bound; unfold Date.msPerDay; lia).
    replace (Z.to_nat ((e - s) / Date.msPerDay + 1)) with O by lia.
    reflexivity.
  - intros [H|H]; discriminate.
Qed.

(* ===================================================================== *)
(** * What validation and the fast track let through *)
(* ===================================================================== *)

(** X3: [BaseAgent.validateRequest] changes nothing, and accepts a request
    exactly when both date fields are present and the two are not valid
    dates with the start after the end.  A date that is present but cannot
    be parsed therefore passes validation. *)
Theorem validateRequest_accepts_iff (request : LeaveRequest) (w : World) :
  snd (BaseAgent.validateRequest request w) = w
  /\ (fst (BaseAgent.validateRequest request w) = Ok tt
      <-> (absent (startDate request) = false /\ absent (endDate request) = false
           /\ ~ (exists s e, new_Date (startDate request) = Some s
                             /\ new_Date (endDate request) = Some e /\ e < s)))
  /\ (forall e, startDate request = DateOf None -> endDate request = DateOf e ->
                fst (BaseAgent.validateRequest request w) = Ok tt).
Proof.
  unfold BaseAgent.validateRequest.
  destruct (startDate request) as [|[s|]], (endDate request) as [|[e|]]; simpl;
    try (split; [reflexivity|]; split;
         [ split; [discriminate | intros [H1 [H2 _]]; discriminate]
         | intros; discriminate ]).
  - destruct (Z.ltb_spec e s) as [Hlt|Hge]; simpl.
    + split; [reflexivity|]. split; [|intros; discriminate].
      split; [discriminate|]. intros [_ [_ H]]. exfalso. apply H.
      exists s, e. repeat split. exact Hlt.
    + split; [reflexivity|]. split; [|intros; discriminate].
      split; [|reflexivity]. intros _. repeat split.
      intros [s' [e' [[= <-] [[= <-] Hlt]]]]. lia.
  - split; [reflexivity|]. split; [|intros; discriminate].
    split; [|reflexivity]. intros _. repeat split.
    intros [s' [e' [_ [H _]]]]. discriminate.
  - split; [reflexivity|]. split; [|reflexivity].
    split; [|reflexivity]. intros _. repeat split.
    intros [s' [e' [H _]]]. discriminate.
  - split; [reflexivity|]. split; [|reflexivity].
    split; [|reflexivity]. intros _. repeat split.
    intros [s' [e' [H _]]]. discriminate.
Qed.

Lemma checkLeaveDuration_elapsed (request : LeaveRequest) :
  FastApprovalAgent.checkLeaveDuration request = true
  <-> exists s e, new_Date (startDate request) = Some s
                  /\ new_Date (endDate request) = Some e
                  /\ 2 * (e - s) < 7 * Date.msPerDay.
Proof.
  rewrite checkLeaveDuration_spec.
  destruct (new_Date (startDate request)) as [s|], (new_Date (endDate request)) as [e|].
  - rewrite fastApproval_threshold_is_elapsed_time. split.
    + intro H. exists s, e. repeat split. exact H.
    + intros [s' [e' [[= <-] [[= <-] H]]]]. exact H.
  - split; [intros [d [H _]]; discriminate | intros [s' [e' [_ [H _]]]]; discriminate].
  - split; [intros [d [H _]]; discriminate | intros [s' [e' [H _]]]; discriminate].
  - split; [intros [d [H _]]; discriminate | intros [s' [e' [H _]]]; discriminate].
Qed.

(** X4: [FastApprovalAgent.evaluate] decides on elapsed time alone.  It
    returns a fast-track approval exactly when both dates are valid and the
    end is less than three and a half days after the start; every other
    request, one with a missing or invalid date included, gets PENDING. *)
Theorem fast_track_iff_under_three_and_a_half_days (request : LeaveRequest) (w : World) :
  ((exists d, decided (FastApprovalAgent.evaluate request w) = Some d
              /\ is_fast_track d = true)
   <-> (exists s e, new_Date (startDate request) = Some s
                    /\ new_Date (endDate request) = Some e
                    /\ 2 * (e - s) < 7 * Date.msPerDay))
  /\ ((exists d, decided (FastApprovalAgent.evaluate request w) = Some d
                 /\ status d = VStr "PENDING")
      <-> ~ (exists s e, new_Date (startDate request) = Some s
                         /\ new_Date (endDate request) = Some e
                         /\ 2 * (e - s) < 7 * Date.msPerDay)).
Proof.
  rewrite <- checkLeaveDuration_elapsed.
  destruct (FastApprovalAgent.checkLeaveDuration request) eqn:E.
  - rewrite (evaluate_short _ _ E). split.
    + split; [reflexivity|]. intros _. eexists. split; reflexivity.
    + split.
      * intros [d [[= <-] H]]. discriminate.
      * intro H. exfalso. apply H. reflexivity.
  - rewrite (evaluate_long _ _ E). split.
    + split; [|discriminate]. intros [d [[= <-] H]]. discriminate.
    + split; [discriminate|]. intros _. eexists. split; reflexivity.
Qed.

(** X5: a request whose end date precedes its start date is rejected by
    [BaseAgent.validateRequest] and fast-tracked by
    [FastApprovalAgent.evaluate], which never validates the order of the
    dates: a negative duration is below the threshold. *)
Theorem reversed_dates_are_fast_tracked (request : LeaveRequest) (w : World) :
  Date.gt (new_Date (startDate request)) (new_Date (endDate request)) = true ->
  fst (BaseAgent.validateRequest request w)
  = Throw (ErrorObj "Start date cannot be after end date")
  /\ exists d, decided (FastApprovalAgent.evaluate request w) = Some d
               /\ status d = VStr "APPROVED" /\ is_fast_track d = true.
Proof.
  intro H. split.
  - unfold BaseAgent.validateRequest. rewrite (gt_dates_present _ H), H. reflexivity.
  - assert (E : FastApprovalAgent.checkLeaveDuration request = true).
    { apply checkLeaveDuration_elapsed.
      destruct (new_Date (startDate request)) as [s|]; [|discriminate].
      destruct (new_Date (endDate request)) as [e|]; [|discriminate].
      simpl in H. apply Z.ltb_lt in H.
      exists s, e. repeat split. unfold Date.msPerDay. lia. }
    rewrite (evaluate_short _ _ E). eexists. repeat split.
Qed.

Lemma reversed_dates_are_fast_tracked_witness :
  Date.gt (new_Date (startDate reversed_request))
          (new_Date (endDate reversed_request)) = true
  /\ fst (BaseAgent.validateRequest reversed_request
            (sample_world (Failure (ErrorObj "unused")) None false))
     = Throw (ErrorObj "Start date cannot be after end date")
  /\ exists d,
       decided (FastApprovalAgent.evaluate reversed_request
                  (sample_world (Failure (ErrorObj "unused")) None false)) = Some d
       /\ status d = VStr "APPROVED" /\ is_fast_track d = true.
Proof.
  split; [reflexivity|].
  apply (reversed_dates_are_fast_tracked reversed_request). reflexivity.
Defined.

(** X6: [FastApprovalAgent.evaluate] leaves no trace but a demo log line.
    It never calls the model and never writes to the audit log, the
    override log or the cost log; it appends one line naming the employee
    to the demo log when it approves, and changes nothing when it does
    not. *)
Theorem fast_approval_is_not_audited (request : LeaveRequest) (w : World) :
  let w' := snd (FastApprovalAgent.evaluate request w) in
  modelCalls w' = modelCalls w /\ auditLog w' = auditLog w
  /\ overrideLog w' = overrideLog w /\ costLog w' = costLog w
  /\ (FastApprovalAgent.checkLeaveDuration request = true ->
      demoLog w' = (demoLog w
                      ++ [("Fast-track approved leave for " ++ employeeId request)%string])%list)
  /\ (FastApprovalAgent.checkLeaveDuration request = false -> w' = w).
Proof.
  destruct (FastApprovalAgent.checkLeaveDuration request) eqn:E.
  - rewrite (evaluate_short _ _ E). simpl. repeat split; try reflexivity. discriminate.
  - rewrite (evaluate_long _ _ E). simpl. repeat split; try reflexivity. discriminate.
Qed.

(* ===================================================================== *)
(** * Which replies the decision parsers accept *)
(* ===================================================================== *)

Lemma parse_containers (k : nat) :
  (forall s acc v r, JSON.parse_elements k s acc = Some (v, r) -> exists l, v = VArr l)
  /\ (forall s acc v r, JSON.parse_members k s acc = Some (v, r) -> exists o, v = VObj o).
Proof.
  induction k as [|k [IHe IHm]]; [split; discriminate|]. split.
  - intros s acc v r H.
    cbn [JSON.parse_value JSON.parse_elements JSON.parse_members] in H.
    destruct (JSON.parse_value k s) as [[v1 r1]|]; [|discriminate].
    destruct (JSON.skip_ws r1) as [|d r']; [discriminate|].
    destruct (d =? 44)%N; [exact (IHe _ _ _ _ H)|].
    destruct (d =? 93)%N; [|discriminate].
    injection H as <- _. eexists. reflexivity.
  - intros s acc v r H.
    cbn [JSON.parse_value JSON.parse_elements JSON.parse_members] in H.
    destruct (JSON.skip_ws s) as [|q s1]; [discriminate|].
    destruct (q =? 34)%N; [|discriminate].
    destruct (JSON.parse_chars s1 []) as [[key s2]|]; [|discriminate].
    destruct (JSON.skip_ws s2) as [|c s3]; [discriminate|].
    destruct (c =? 58)%N; [|discriminate].
    destruct (JSON.parse_value k s3) as [[v1 r1]|]; [|discriminate].
    destruct (JSON.skip_ws r1) as [|d r']; [discriminate|].
    destruct (d =? 44)%N; [exact (IHm _ _ _ _ H)|].
    destruct (d =? 125)%N; [|discriminate].
    injection H as <- _. eexists. reflexivity.
Qed.

(** [JSON.parse] never yields [undefined]. *)
Lemma JSON_parse_defined (raw : string) (v : value) :
  JSON.parse raw = Some v -> v <> VUndef.
Proof.
  unfold JSON.parse.
  destruct (JSON.parse_value _ _) as [[v' r]|] eqn:H; [|discriminate].
  destruct (JSON.skip_ws r); [|discriminate]. intros [= <-].
  destruct (2 * List.length (JSON.codes raw) + 2)%nat as [|k]; [discriminate|].
  cbn [JSON.parse_value JSON.parse_elements JSON.parse_members] in H.
  destruct (JSON.skip_ws (JSON.codes raw)) as [|c rest]; [discriminate|].
  destruct (c =? 34)%N.
  { destruct (JSON.parse_chars rest []) as [[str r0]|]; [|discriminate].
    injection H as <- _. discriminate. }
  destruct (c =? 91)%N.
  { destruct (JSON.skip_ws rest) as [|d r0]; [discriminate|].
    destruct (d =? 93)%N; [injection H as <- _; discriminate|].
    destruct (proj1 (parse_containers k) _ _ _ _ H) as [l ->]. discriminate. }
  destruct (c =? 123)%N.
  { destruct (JSON.skip_ws rest) as [|d r0]; [discriminate|].
    destruct (d =? 125)%N; [injection H as <- _; discriminate|].
    destruct (proj2 (parse_containers k) _ _ _ _ H) as [o ->]. discriminate. }
  destruct ((c =? 45)%N || JSON.is_digit c).
  { destruct (JSON.parse_number (c :: rest)) as [[q r0]|]; [|discriminate].
    injection H as <- _. discriminate. }
  destruct (JSON.strip_prefix (JSON.codes "null") (c :: rest));
    [injection H as <- _; discriminate|].
  destruct (JSON.strip_prefix (JSON.codes "true") (c :: rest));
    [injection H as <- _; discriminate|].
  destruct (JSON.strip_prefix (JSON.codes "false") (c :: rest)); [|discriminate].
  injection H as <- _. discriminate.
Qed.

(** Reading a property of a parsed reply throws on [null] only. *)
Lemma get_parsed (raw : string) (v : value) (k : string) :
  JSON.parse raw = Some v ->
  (v = VNull /\ exists e, get v k = Throw e)
  \/ (v <> VNull /\ exists x, get v k = Ok x).
Proof.
  intro H. pose proof (JSON_parse_defined _ _ H) as Hd.
  destruct v; try (right; split; [discriminate | eexists; reflexivity]).
  - contradiction.
  - left. split; [reflexivity | eexists; reflexivity].
Qed.

(** X7: [GPTService.parseDecisionResponse] rejects a text reply exactly
    when the text is not JSON or is the JSON [null], and then its message
    carries the text.  Every other JSON value is accepted, with the fields
    it lacks left undefined, and a reply whose content is an array of
    parts is accepted unread: status, reason and confidence are all
    undefined. *)
Theorem parseDecisionResponse_rejects_only_non_json_and_null
        (this : GPTService.t) (response : AIMessage) :
  ((exists e, GPTService.parseDecisionResponse this response = Throw e)
   <-> (exists raw, content response = Text raw
                    /\ (JSON.parse raw = None \/ JSON.parse raw = Some VNull)))
  /\ (forall e, GPTService.parseDecisionResponse this response = Throw e ->
                e = ErrorObj ("Failed to parse AI response: "
                                ++ Content_toString (content response)))
  /\ (forall parts, content response = Parts parts ->
                    exists d, GPTService.parseDecisionResponse this response = Ok d
                              /\ status d = VUndef /\ decision_reason d = VUndef
                              /\ confidence d = VUndef).
Proof.
  destruct response as [[raw|parts]];
    unfold GPTService.parseDecisionResponse, GPTService.contentOf, JSON_parse; simpl.
  - destruct (JSON.parse raw) as [v|] eqn:P.
    + destruct (get_parsed raw v "decision" P) as [[-> _]|[Hn _]].
      * simpl. split; [|split].
        -- split; [|intros _; eexists; reflexivity].
           intros _. exists raw. split; [reflexivity | right; exact P].
        -- intros e [= <-]. reflexivity.
        -- intros parts H. discriminate.
      * pose proof (JSON_parse_defined _ _ P) as Hd.
        destruct v; try contradiction; simpl;
          (split; [|split];
           [ split;
             [ intros [e He]; discriminate
             | intros [raw' [[= <-] [H|H]]]; congruence ]
           | intros e He; discriminate
           | intros parts H; discriminate ]).
    + simpl. split; [|split].
      * split; [|intros _; eexists; reflexivity].
        intros _. exists raw. split; [reflexivity | left; exact P].
      * intros e [= <-]. reflexivity.
      * intros parts H. discriminate.
  - split; [|split].
    + split; [intros [e He]; discriminate | intros [raw [H _]]; discriminate].
    + intros e He. discriminate.
    + intros parts' _. eexists. repeat split.
Qed.

(** The string form of a content array, [[object Object],...], is never
    JSON. *)
Lemma content_parts_are_not_JSON (parts : list obj) :
  JSON.parse (Content_toString (Parts parts)) = None.
Proof.
  destruct parts as [|p [|p' rest]]; reflexivity.
Qed.

(** X8: [LeaveApprovalWorkflow.parseResponse] changes nothing in the
    world, and fails exactly when the content, read as a string, is not
    JSON or is the JSON [null]; any other JSON value gives a decision.  A
    content that is an array of parts always fails, since its string form
    is not JSON. *)
Theorem parseResponse_rejects_only_non_json_and_null
        (response : AIMessage) (w : World) :
  snd (LeaveApprovalWorkflow.parseResponse response w) = w
  /\ ((exists e, fst (LeaveApprovalWorkflow.parseResponse response w) = Throw e)
      <-> (JSON.parse (Content_toString (content response)) = None
           \/ JSON.parse (Content_toString (content response)) = Some VNull))
  /\ (forall parts, content response = Parts parts ->
                    fst (LeaveApprovalWorkflow.parseResponse response w)
                    = Throw (ErrorObj ("Failed to parse AI response: "
                                         ++ Content_toString (Parts parts)))).
Proof.
  assert (Main :
    forall c,
      snd (LeaveApprovalWorkflow.parseResponse (mkAIMessage c) w) = w
      /\ ((exists e, fst (LeaveApprovalWorkflow.parseResponse (mkAIMessage c) w) = Throw e)
          <-> (JSON.parse (Content_toString c) = None
               \/ JSON.parse (Content_toString c) = Some VNull))
      /\ (JSON.parse (Content_toString c) = None ->
          fst (LeaveApprovalWorkflow.parseResponse (mkAIMessage c) w)
          = Throw (ErrorObj ("Failed to parse AI response: " ++ Content_toString c)))).
  { intro c. unfold LeaveApprovalWorkflow.parseResponse, JSON_parse. run.
    destruct (JSON.parse (Content_toString c)) as [v|] eqn:P.
    - pose proof (JSON_parse_defined _ _ P) as Hd.
      destruct v; try contradiction; simpl;
        (split; [reflexivity|]; split; [|discriminate]);
        try (split; [intros [e He]; discriminate | intros [H|H]; discriminate]).
      split; [intros _; right; reflexivity | intros _; eexists; reflexivity].
    - simpl. split; [reflexivity|]. split; [|reflexivity].
      split; [intros _; left; reflexivity | intros _; eexists; reflexivity]. }
  destruct response as [c]. simpl.
  destruct (Main c) as [H1 [H2 H3]]. split; [exact H1|]. split; [exact H2|].
  intros parts ->. apply H3. apply content_parts_are_not_JSON.
Qed.

(* ===================================================================== *)
(** * From issues to alerts *)
(* ===================================================================== *)

(** X9: when the reply is JSON whose [issues] is an array, the [try] block
    of [ComplianceCheckWorkflow.scan] gives one alert per issue, in the
    order of the issues, and each alert keeps every own field of its issue
    other than [detectedAt] and [status].  The issues themselves are not
    checked: any JSON value in the array yields an alert. *)
Theorem scanResults_gives_one_alert_per_issue
        (w : World) (raw : string) (v : value) (items : list value) :
  JSON.parse raw = Some v ->
  get v "issues" = Ok (VArr items) ->
  exists alerts,
    ComplianceCheckWorkflow.scanResults raw w = (Ok alerts, w)
    /\ Forall2 (fun issue alert =>
                  forall k, k <> "detectedAt" -> k <> "status" ->
                            obj_get alert k = obj_get (spread issue) k)
               items alerts.
Proof.
  intros Hp Hi. apply JSON_parse_some in Hp.
  unfold ComplianceCheckWorkflow.scanResults.
  run. rewrite Hp. simpl. rewrite Hi. simpl.
  rewrite (mapM_reader _
             (fun w0 issue =>
                obj_set (obj_set (spread issue) "detectedAt"
                                 (VStr (Date.toISOString (now w0))))
                        "status" (VStr "OPEN")))
    by reflexivity.
  eexists. split; [reflexivity|].
  apply Forall2_map_self. intros issue k Hk1 Hk2.
  rewrite !obj_get_set_other by congruence. reflexivity.
Qed.

Lemma scanResults_gives_one_alert_per_issue_witness :
  exists alerts,
    ComplianceCheckWorkflow.scanResults overtime_reply
      (sample_world (Failure (ErrorObj "unused")) None false)
    = (Ok alerts, sample_world (Failure (ErrorObj "unused")) None false)
    /\ Forall2 (fun issue alert =>
                  forall k, k <> "detectedAt" -> k <> "status" ->
                            obj_get alert k = obj_get (spread issue) k)
               [VObj [("type", VStr "OVERTIME"); ("severity", VStr "HIGH");
                      ("description", VStr "52h week")]]
               alerts.
Proof.
  refine (scanResults_gives_one_alert_per_issue
            (sample_world (Failure (ErrorObj "unused")) None false)
            overtime_reply _ _ _ _).
  - vm_compute. reflexivity.
  - reflexivity.
Defined.

(** X10: when the reply is JSON but its [issues] is not an array, a missing
    [issues] included, the [try] block of [ComplianceCheckWorkflow.scan]
    fails with the parse error that carries the reply text. *)
Theorem scanResults_rejects_replies_without_issues_array
        (w : World) (raw : string) (v : value) :
  JSON.parse raw = Some v ->
  (forall items, get v "issues" <> Ok (VArr items)) ->
  ComplianceCheckWorkflow.scanResults raw w
  = (Throw (ErrorObj ("Failed to parse compliance scan results: " ++ raw)), w).
Proof.
  intros Hp Hi. apply JSON_parse_some in Hp.
  unfold ComplianceCheckWorkflow.scanResults.
  run. rewrite Hp. simpl.
  destruct (get v "issues") as [issues|e]; simpl; [|reflexivity].
  destruct issues; try reflexivity.
  exfalso. exact (Hi _ eq_refl).
Qed.

Lemma scanResults_rejects_replies_without_issues_array_witness :
  ComplianceCheckWorkflow.scanResults "{}"
    (sample_world (Failure (ErrorObj "unused")) None false)
  = (Throw (ErrorObj "Failed to parse compliance scan results: {}"),
     sample_world (Failure (ErrorObj "unused")) None false).
Proof.
  refine (scanResults_rejects_replies_without_issues_array
            (sample_world (Failure (ErrorObj "unused")) None false) "{}" (VObj []) _ _).
  - vm_compute. reflexivity.
  - intros items H. discriminate.
Defined.

Lemma alert_builder_preserves (issue : value) (w : World) :
  snd ((ty <- lift (get issue "type") ;;
        sv <- lift (get issue "severity") ;;
        ds <- lift (get issue "description") ;;
        ts <- timestamp ;;
        ret [("type", ty); ("severity", sv); ("description", ds);
             ("detectedAt", VStr ts)]) w) = w.
Proof.
  run. destruct (get issue "type"); [|reflexivity]. simpl.
  destruct (get issue "severity"); [|reflexivity]. simpl.
  destruct (get issue "description"); reflexivity.
Qed.

Lemma parseComplianceResponse_preserves (response : AIMessage) (w : World) :
  snd (GPTService.parseComplianceResponse response w) = w.
Proof.
  unfold GPTService.parseComplianceResponse, try_catch, bind, lift, throw.
  destruct (GPTService.contentOf response) as [c|e]; [|reflexivity].
  destruct (get c "issues") as [issues|e]; [|reflexivity].
  destruct issues; try reflexivity. simpl.
  pose proof (mapM_preserves _ alert_builder_preserves items w) as Hm.
  destruct (mapM _ items w) as [[ys|e] w1]; simpl in Hm; subst; reflexivity.
Qed.

(** X11: one [null] among the issues fails the whole of
    [GPTService.parseComplianceResponse]: no alert is returned for the
    other issues, the error is the parse error with the reply text, and the
    world is as it was. *)
Theorem parseComplianceResponse_fails_on_a_null_issue
        (raw : string) (v : value) (items : list value) (w : World) :
  JSON.parse raw = Some v ->
  get v "issues" = Ok (VArr items) ->
  In VNull items ->
  GPTService.parseComplianceResponse (mkAIMessage (Text raw)) w
  = (Throw (ErrorObj ("Failed to parse compliance response: " ++ raw)), w).
Proof.
  intros Hp Hi Hin. apply JSON_parse_some in Hp.
  pose proof (parseComplianceResponse_preserves (mkAIMessage (Text raw)) w) as Hw.
  revert Hw.
  unfold GPTService.parseComplianceResponse, GPTService.contentOf, try_catch, bind, lift.
  simpl. rewrite Hp, Hi. simpl.
  match goal with
  | |- context [mapM ?f items w] =>
      assert (Hbad : forall w0, exists e, fst (f VNull w0) = Throw e)
        by (intro w0; eexists; reflexivity);
      destruct (mapM_throws f VNull Hbad items Hin w) as [e He]
  end.
  destruct (mapM _ items w) as [[ys|e'] w1]; simpl in He; [discriminate|].
  unfold throw. simpl. intros ->. reflexivity.
Qed.

Lemma parseComplianceResponse_fails_on_a_null_issue_witness :
  GPTService.parseComplianceResponse
    (mkAIMessage (Text (JSON.dq "{'issues':[{'type':'OVERTIME'},null]}")))
    (sample_world (Failure (ErrorObj "unused")) None false)
  = (Throw (ErrorObj ("Failed to parse compliance response: "
                        ++ JSON.dq "{'issues':[{'type':'OVERTIME'},null]}")),
     sample_world (Failure (ErrorObj "unused")) None false).
Proof.
  refine (parseComplianceResponse_fails_on_a_null_issue
            (JSON.dq "{'issues':[{'type':'OVERTIME'},null]}") _
            [VObj [("type", VStr "OVERTIME")]; VNull] _ _ _ _).
  - vm_compute. reflexivity.
  - reflexivity.
  - right. left. reflexivity.
Defined.

(* ===================================================================== *)
(** * What [GPTService] records and reports *)
(* ===================================================================== *)

Lemma getCallerName_short_stack (host : GPTService.Host) (lines : list string) :
  GPTService.stack host = Some lines -> (List.length lines <= 2)%nat ->
  GPTService.getCallerName host
  = Throw (ErrorObj "Cannot read properties of undefined (reading 'trim')").
Proof.
  intros Hs Hl. unfold GPTService.getCallerName. rewrite Hs.
  destruct lines as [|a [|b [|c rest]]]; try reflexivity. simpl in Hl. lia.
Qed.

(** X12: each call of [GPTService.evaluateLeaveRequest] and of
    [GPTService.scanForComplianceIssues] is accounted for once.  Either it
    returns a response, having added one usage entry for the current model
    to the cost log and nothing to the audit log; or it throws an [Error]
    whose message is [[GPTService]] followed by the message of the
    failure, having added one GPT_ERROR event with that message to the
    audit log and nothing to the cost log.  The failure itself never
    reaches the caller unwrapped. *)
Theorem gptService_accounts_for_each_call_once
        (host : GPTService.Host) (this : GPTService.t) (w : World) :
  (forall request context,
     let r := GPTService.evaluateLeaveRequest host this request context w in
     (exists resp usage,
        fst r = Ok resp
        /\ costLog (snd r) = (costLog w ++ [usage])%list
        /\ auditLog (snd r) = auditLog w
        /\ obj_get usage "model"
           = VStr (GPTService.ModelName_text (GPTService.currentModel this)))
     \/ (exists msg event,
           fst r = Throw (ErrorObj ("[GPTService] " ++ msg))
           /\ costLog (snd r) = costLog w
           /\ auditLog (snd r) = (auditLog w ++ [event])%list
           /\ obj_get event "event" = VStr "GPT_ERROR"
           /\ obj_get event "context" = VStr "leave-request-evaluation"
           /\ obj_get event "error" = VStr msg))
  /\ (forall d,
        let r := GPTService.scanForComplianceIssues host this d w in
        (exists resp usage,
           fst r = Ok resp
           /\ costLog (snd r) = (costLog w ++ [usage])%list
           /\ auditLog (snd r) = auditLog w
           /\ obj_get usage "model"
              = VStr (GPTService.ModelName_text (GPTService.currentModel this)))
        \/ (exists msg event,
              fst r = Throw (ErrorObj ("[GPTService] " ++ msg))
              /\ costLog (snd r) = costLog w
              /\ auditLog (snd r) = (auditLog w ++ [event])%list
              /\ obj_get event "event" = VStr "GPT_ERROR"
              /\ obj_get event "context" = VStr "compliance-scan"
              /\ obj_get event "error" = VStr msg)).
Proof.
  split.
  - intros request context r. subst r. right.
    exists "SystemMessage is not defined". eexists.
    rewrite evaluateLeaveRequest_run. repeat split.
  - intros d r. subst r. right.
    exists "SystemMessage is not defined". eexists.
    rewrite scanForComplianceIssues_run. repeat split.
Qed.

(** X14: the upgrade shows in the next call, and is never undone.  With
    [ENABLE_GPT4] set to ['true'], the service returned by [upgradeToGPT4]
    creates its model instances for gpt-4-turbo, and whatever becomes of
    its next leave evaluation, what that call leaves behind names
    gpt-4-turbo: the response and the usage entry if it returns, the
    GPT_ERROR event if it throws.  With any other setting a service on
    gpt-3.5-turbo goes on naming gpt-3.5-turbo, and a service that is on
    gpt-4-turbo stays on it whatever the setting. *)
Theorem upgrade_shows_in_the_next_call (this : GPTService.t) (w : World) :
  exists this' w1,
    GPTService.upgradeToGPT4 this w = (Ok this', w1)
    /\ (env w "ENABLE_GPT4" = Some "true" ->
        (forall messages,
           modelName (GPTService.createModelInstance this' messages) = "gpt-4-turbo")
        /\ (forall host request context,
              records_model "gpt-4-turbo" w1
                (GPTService.evaluateLeaveRequest host this' request context w1)))
    /\ (env w "ENABLE_GPT4" <> Some "true" ->
        GPTService.currentModel this = GPTService.gpt_3_5_turbo ->
        (forall messages,
           modelName (GPTService.createModelInstance this' messages) = "gpt-3.5-turbo")
        /\ (forall host request context,
              records_model "gpt-3.5-turbo" w1
                (GPTService.evaluateLeaveRequest host this' request context w1)))
    /\ (GPTService.currentModel this = GPTService.gpt_4_turbo ->
        GPTService.currentModel this' = GPTService.gpt_4_turbo).
Proof.
  unfold GPTService.upgradeToGPT4. run.
  destruct (strictly_equals (env w "ENABLE_GPT4") "true") eqn:E.
  - eexists. eexists. split; [reflexivity|]. split; [|split].
    + intros _. split; [intro messages; reflexivity|].
      intros host request context. right.
      rewrite evaluateLeaveRequest_run. eexists. eexists.
      repeat split.
    + intro H. apply strictly_equals_iff in E. contradiction.
    + intros _. reflexivity.
  - eexists. eexists. split; [reflexivity|]. split; [|split].
    + intro H. apply strictly_equals_iff in H. congruence.
    + intros _ Hm. split.
      * intro messages. unfold GPTService.createModelInstance. simpl.
        rewrite Hm. reflexivity.
      * intros host request context. right.
        rewrite evaluateLeaveRequest_run. eexists. eexists.
        split; [reflexivity|]. split; [reflexivity|]. split; [reflexivity|].
        unfold GPT_ERROR. simpl. rewrite Hm. reflexivity.
    + intro H. exact H.
Qed.

(** X15: when the engine's stack trace has fewer than three lines,
    [GPTService.createResponse] cannot succeed.  For data that
    [JSON.stringify] renders as text, reading the caller's name throws
    while the usage entry is being built, so no usage is recorded and
    nothing else changes. *)
Theorem createResponse_fails_on_a_short_stack
        (host : GPTService.Host) (lines : list string) (this : GPTService.t)
        (T : Type) (d : T) (startTime : Z) (w : World) :
  GPTService.stack host = Some lines ->
  (List.length lines <= 2)%nat ->
  GPTService.createResponse host this d startTime w
  = (Throw (ErrorObj "Cannot read properties of undefined (reading 'trim')"), w).
Proof.
  intros Hs Hl. unfold GPTService.createResponse. run.
  rewrite (getCallerName_short_stack _ _ Hs Hl). reflexivity.
Qed.

Lemma createResponse_fails_on_a_short_stack_witness :
  GPTService.createResponse
    (GPTService.mkHost (fun _ _ => 120) (Some ["Error"; "    at run"]))
    (GPTService.new None) [overtime_reply] 0
    (sample_world (Failure (ErrorObj "unused")) None false)
  = (Throw (ErrorObj "Cannot read properties of undefined (reading 'trim')"),
     sample_world (Failure (ErrorObj "unused")) None false).
Proof.
  refine (createResponse_fails_on_a_short_stack
            (GPTService.mkHost (fun _ _ => 120) (Some ["Error"; "    at run"]))
            ["Error"; "    at run"] (GPTService.new None) _ _ _ _ _ _).
  - reflexivity.
  - simpl. lia.
Defined.

(* ===================================================================== *)
(** * The operations as they are written *)
(* ===================================================================== *)

(** X19: as they are written, neither operation of [GPTService] reaches
    the model.  Whatever the request, the data and the answer the model
    would give, the operation throws [[GPTService] SystemMessage is not
    defined], having logged one GPT_ERROR event for it under its context;
    no call is made and no usage is recorded. *)
Theorem gptService_never_reaches_the_model
        (host : GPTService.Host) (this : GPTService.t) (w : World) :
  (forall request context,
     let r := GPTService.evaluateLeaveRequest host this request context w in
     fst r = Throw (ErrorObj "[GPTService] SystemMessage is not defined")
     /\ modelCalls (snd r) = modelCalls w
     /\ costLog (snd r) = costLog w
     /\ auditLog (snd r)
        = (auditLog w
             ++ [GPT_ERROR this "leave-request-evaluation"
                           "SystemMessage is not defined"])%list)
  /\ (forall d,
        let r := GPTService.scanForComplianceIssues host this d w in
        fst r = Throw (ErrorObj "[GPTService] SystemMessage is not defined")
        /\ modelCalls (snd r) = modelCalls w
        /\ costLog (snd r) = costLog w
        /\ auditLog (snd r)
           = (auditLog w
                ++ [GPT_ERROR this "compliance-scan" "SystemMessage is not defined"])%list).
Proof.
  split.
  - intros request context r. subst r. rewrite evaluateLeaveRequest_run.
    repeat split.
  - intros d r. subst r. rewrite scanForComplianceIssues_run. repeat split.
Qed.

(** X20: as it is written, [ComplianceCheckWorkflow.scan] never reaches
    the model either.  Its chain throws [SystemMessage is not defined]
    while it builds the messages, outside the [try] block of [scan]: the
    error reaches the caller as it is, not as a parse error, and nothing
    has changed. *)
Theorem scan_never_reaches_the_model
        (data : ComplianceCheckWorkflow.ScanData) (w : World) :
  ComplianceCheckWorkflow.detectionChain
    (ComplianceCheckWorkflow.ScanData_value data) w
  = (Throw (ErrorObj "SystemMessage is not defined"), w)
  /\ ComplianceCheckWorkflow.scan data w
     = (Throw (ErrorObj "SystemMessage is not defined"), w).
Proof. split; reflexivity. Qed.
